(** * pytorch-cpp-rl: rollout storage and the gym client's bookkeeping

    A shallow embedding of [src/storage.cpp] (the [RolloutStorage] class and
    the expectations of its doctest cases) and of the reward bookkeeping in
    the training loop of [example/gym_client.cpp].

    Numbers.  A [float] or [double] is modelled by an exact rational or one
    of [+inf], [-inf], NaN, with the IEEE rules for the non-finite ones; no
    rounding and no overflow to infinity is modelled.  An [unsigned int] is a
    [Z] in [0, 2^32) and its additions wrap; conversions from floating point
    to an integer type discard the fractional part. *)

From Stdlib Require Import ZArith QArith Qminmax String Lia Lqa.
From stdpp Require Import base option list.

Open Scope Z_scope.

(** ** Machine integers *)

Definition UINT_MODULUS : Z := 2 ^ 32.

Definition is_uint (z : Z) : Prop := 0 <= z < UINT_MODULUS.

(** [a + b] on [unsigned int]. *)
Definition uint_add (a b : Z) : Z := (a + b) mod UINT_MODULUS.

(** Conversion of a [long] to [int] (two's complement, 32 bits). *)
Definition long_to_int (z : Z) : Z :=
  (z + 2 ^ 31) mod UINT_MODULUS - 2 ^ 31.

Definition INT_MIN : Z := - 2 ^ 31.
Definition INT_MAX : Z := 2 ^ 31 - 1.
Definition LONG_MIN : Z := - 2 ^ 63.
Definition LONG_MAX : Z := 2 ^ 63 - 1.

(** [a % b] on [int]: the quotient is truncated towards zero. *)
Definition int_rem (a b : Z) : Z := Z.rem a b.

(** ** Floating-point values *)

Module Float.

Inductive float :=
| Fin (q : Q)
| PInf
| NInf
| NaN.

Definition of_Z (z : Z) : float := Fin (inject_Z z).

Definition zero : float := Fin 0.
Definition one : float := Fin 1.

Definition fopp (a : float) : float :=
  match a with
  | Fin x => Fin (- x)
  | PInf => NInf
  | NInf => PInf
  | NaN => NaN
  end.

Definition fadd (a b : float) : float :=
  match a, b with
  | NaN, _ | _, NaN => NaN
  | PInf, NInf | NInf, PInf => NaN
  | PInf, _ | _, PInf => PInf
  | NInf, _ | _, NInf => NInf
  | Fin x, Fin y => Fin (x + y)
  end.

Definition fsub (a b : float) : float := fadd a (fopp b).

(** The infinity whose sign is that of [x] ([positive]) or its opposite; a
    NaN when [x] is zero. *)
Definition inf_signed (x : Q) (positive : bool) : float :=
  match (x ?= 0)%Q with
  | Eq => NaN
  | Gt => if positive then PInf else NInf
  | Lt => if positive then NInf else PInf
  end.

Definition fmul (a b : float) : float :=
  match a, b with
  | NaN, _ | _, NaN => NaN
  | Fin x, Fin y => Fin (x * y)
  | Fin x, PInf | PInf, Fin x => inf_signed x true
  | Fin x, NInf | NInf, Fin x => inf_signed x false
  | PInf, PInf | NInf, NInf => PInf
  | PInf, NInf | NInf, PInf => NInf
  end.

(** Division.  A finite zero divisor is [+0], the only zero the client ever
    divides by (an [int] count converted to [float], or a square root):
    [0 / 0] is a NaN and [x / 0] the infinity with the sign of [x]. *)
Definition fdiv (a b : float) : float :=
  match a, b with
  | NaN, _ | _, NaN => NaN
  | Fin x, Fin y =>
      if Qeq_bool y 0 then inf_signed x true else Fin (x / y)
  | Fin _, (PInf | NInf) => Fin 0
  | PInf, Fin y => if Qle_bool 0 y then PInf else NInf
  | NInf, Fin y => if Qle_bool 0 y then NInf else PInf
  | (PInf | NInf), (PInf | NInf) => NaN
  end.

(** [a >= b]: false as soon as one side is a NaN. *)
Definition fge (a b : float) : bool :=
  match a, b with
  | NaN, _ | _, NaN => false
  | PInf, _ | _, NInf => true
  | _, PInf | NInf, _ => false
  | Fin x, Fin y => Qle_bool y x
  end.

(** [torch::clamp(x, lo, hi)] with finite bounds, [min(max(x, lo), hi)]; a
    NaN stays a NaN. *)
Definition clamp (x : float) (lo hi : Q) : float :=
  match x with
  | NaN => NaN
  | PInf => Fin hi
  | NInf => Fin (Qmin lo hi)
  | Fin q => Fin (Qmin (Qmax q lo) hi)
  end.

(** Conversion to an integer type of range [lo, hi]: the fractional part is
    discarded; a NaN, an infinity or a value out of range has no defined
    result. *)
Definition to_integer (lo hi : Z) (x : float) : option Z :=
  match x with
  | Fin q =>
      let z := Z.quot (Qnum q) (Zpos (Qden q)) in
      if (lo <=? z) && (z <=? hi) then Some z else None
  | _ => None
  end.

Definition to_int : float -> option Z := to_integer INT_MIN INT_MAX.
Definition to_long : float -> option Z := to_integer LONG_MIN LONG_MAX.

(** Equality of values (not the IEEE comparison): finite values are compared
    as rationals. *)
Definition same (a b : float) : bool :=
  match a, b with
  | Fin x, Fin y => Qeq_bool x y
  | PInf, PInf | NInf, NInf | NaN, NaN => true
  | _, _ => false
  end.

End Float.

Import Float.

(** [std::vector]'s [v[i]] and [v[i] = x]: an index out of range has no
    defined behaviour and is a failure here. *)
Definition load {A} (v : list A) (i : nat) : option A := v !! i.

Definition store {A} (v : list A) (i : nat) (x : A) : option (list A) :=
  if decide (i < length v)%nat then Some (<[i := x]> v) else None.

(** ** Tensors *)

Module Torch.

Inductive ScalarType := kFloat | kLong.

(** The elements of a tensor, in row-major order, tagged by element type. *)
Inductive Elements :=
| FloatData (l : list float)
| LongData (l : list Z).

Record Tensor := mkTensor {
  sizes : list Z;
  elements : Elements
}.

Definition dtype (t : Tensor) : ScalarType :=
  match elements t with
  | FloatData _ => kFloat
  | LongData _ => kLong
  end.

(** The elements read as scalars ([item().toDouble()]). *)
Definition values (t : Tensor) : list float :=
  match elements t with
  | FloatData l => l
  | LongData l => of_Z <$> l
  end.

Definition numel_of (shape : list Z) : Z := foldr Z.mul 1 shape.

Definition numel (t : Tensor) : Z := numel_of (sizes t).

(** Allocation of a tensor filled with one value ([torch::zeros],
    [torch::ones]); a negative dimension is rejected.  Running out of memory
    is not modelled: a result says that the shape is accepted and what the
    tensor holds, not that the allocation can be served. *)
Definition full (shape : list Z) (v : float) : option Tensor :=
  if forallb (fun d => 0 <=? d) shape
  then Some (mkTensor shape
               (FloatData (replicate (Z.to_nat (numel_of shape)) v)))
  else None.

Definition zeros (shape : list Z) : option Tensor := full shape zero.
Definition ones (shape : list Z) : option Tensor := full shape one.

(** [t.to(dtype)]. *)
Definition to (t : Tensor) (ty : ScalarType) : option Tensor :=
  match ty, elements t with
  | kLong, FloatData l =>
      l' ← mapM to_long l; Some (mkTensor (sizes t) (LongData l'))
  | kFloat, LongData l => Some (mkTensor (sizes t) (FloatData (of_Z <$> l)))
  | _, _ => Some t
  end.

(** [torch::from_blob(data, shape)]: the first [numel] values of the blob;
    reading past its end has no defined behaviour. *)
Definition from_blob (blob : list float) (shape : list Z) : option Tensor :=
  if forallb (fun d => 0 <=? d) shape
       && (Z.to_nat (numel_of shape) <=? length blob)%nat
  then Some (mkTensor shape (FloatData (take (Z.to_nat (numel_of shape)) blob)))
  else None.

(** [t.size(d)]. *)
Definition size (t : Tensor) (d : nat) : option Z := sizes t !! d.

(** Row-major offset of an index.  An index may be negative, counting from
    the end, and must be in range after that; the dimensions left without
    index must hold a single element (as [item()] requires). *)
Fixpoint offset (shape idx : list Z) (acc : Z) : option Z :=
  match shape, idx with
  | _, [] => if numel_of shape =? 1 then Some acc else None
  | d :: shape', i :: idx' =>
      let i' := if i <? 0 then i + d else i in
      if (0 <=? i') && (i' <? d) then offset shape' idx' (acc * d + i')
      else None
  | [], _ :: _ => None
  end.

(** [t[i0][i1]...[ik].item().toDouble()]. *)
Definition item (t : Tensor) (idx : list Z) : option float :=
  o ← offset (sizes t) idx 0;
  values t !! Z.to_nat o.

(** Every element of [t] is [v]. *)
Definition filled_with (t : Tensor) (v : float) : Prop :=
  values t = replicate (Z.to_nat (numel t)) v.

End Torch.

Import Torch.

(** ** Action spaces *)

(** Modelled from the spec: the struct [ActionSpace] is declared in
    [cpprl/spaces.h], which is not under [src/].  The spec gives it a kind
    and a shape; the constructor below reads them as [action_space.type], a
    string compared with ["Discrete"], and [action_space.shape], indexed at
    0 and converted to [int]. *)
Record ActionSpace := mkActionSpace {
  type : string;
  shape : list Z
}.

(** ** [RolloutStorage] *)

Module Storage.

(** The members that the constructor of [storage.cpp] initialises (the class
    is declared in [cpprl/storage.h], which is not under [src/]). *)
Record RolloutStorage := mkRolloutStorage {
  observations : Tensor;
  hidden_states : Tensor;
  rewards : Tensor;
  value_predictions : Tensor;
  returns : Tensor;
  action_log_probs : Tensor;
  actions : Tensor;
  masks : Tensor;
  num_steps : Z;
  step : Z
}.

(** The constructor.  [num_steps], [num_processes] and [hidden_state_size]
    are [unsigned int]; [action_space.shape[0]] on an empty vector has no
    defined behaviour and is a failure here. *)
Definition new (num_steps num_processes : Z) (obs_shape : list Z)
    (action_space : ActionSpace) (hidden_state_size : Z)
    : option RolloutStorage :=
  let observations_shape :=
    [uint_add num_steps 1; num_processes] ++ obs_shape in
  observations ← zeros observations_shape;
  hidden_states ←
    zeros [uint_add num_steps 1; num_processes; hidden_state_size];
  rewards ← zeros [num_steps; num_processes; 1];
  value_predictions ← zeros [uint_add num_steps 1; num_processes; 1];
  returns ← zeros [uint_add num_steps 1; num_processes; 1];
  action_log_probs ← zeros [num_steps; num_processes; 1];
  num_actions ←
    (if String.eqb (type action_space) "Discrete" then Some 1
     else long_to_int <$> load (shape action_space) 0);
  actions ← zeros [num_steps; num_processes; num_actions];
  actions ←
    (if String.eqb (type action_space) "Discrete" then to actions kLong
     else Some actions);
  masks ← ones [uint_add num_steps 1; num_processes; 1];
  Some (mkRolloutStorage observations hidden_states rewards
          value_predictions returns action_log_probs actions masks
          num_steps 0).

(** [void RolloutStorage::after_update() {}] *)
Definition after_update (s : RolloutStorage) : RolloutStorage := s.

(** [void RolloutStorage::compute_returns(Tensor, bool, double, double) {}] *)
Definition compute_returns (s : RolloutStorage) (next_value : Tensor)
    (use_gae : bool) (gamma tau : float) : RolloutStorage := s.

(** [void RolloutStorage::insert(Tensor, ..., Tensor) {}] *)
Definition insert (s : RolloutStorage)
    (observation hidden_state action action_log_prob value_prediction
       reward mask : Tensor) : RolloutStorage := s.

(** The accessors that the test cases read the arrays through. *)
Definition get_observations := observations.
Definition get_hidden_states := hidden_states.
Definition get_rewards := rewards.
Definition get_value_predictions := value_predictions.
Definition get_returns := returns.
Definition get_action_log_probs := action_log_probs.
Definition get_actions := actions.
Definition get_masks := masks.

(** A call of one of the three mutators, with its arguments. *)
Inductive Call :=
| CallInsert (observation hidden_state action action_log_prob
                value_prediction reward mask : Tensor)
| CallComputeReturns (next_value : Tensor) (use_gae : bool)
    (gamma tau : float)
| CallAfterUpdate.

Definition call (s : RolloutStorage) (c : Call) : RolloutStorage :=
  match c with
  | CallInsert o h a l v r m => insert s o h a l v r m
  | CallComputeReturns nv g ga ta => compute_returns s nv g ga ta
  | CallAfterUpdate => after_update s
  end.

Definition run (s : RolloutStorage) (cs : list Call) : RolloutStorage :=
  foldl call s cs.

(** What the constructor leaves in the arrays: ones in [masks], zeros
    everywhere else. *)
Definition freshly_filled (s : RolloutStorage) : Prop :=
  filled_with (masks s) one /\
  filled_with (observations s) zero /\
  filled_with (hidden_states s) zero /\
  filled_with (rewards s) zero /\
  filled_with (value_predictions s) zero /\
  filled_with (returns s) zero /\
  filled_with (action_log_probs s) zero /\
  filled_with (actions s) zero.

End Storage.

(** ** The return recursions as the doctest cases expect them

    These two definitions follow the recursions asserted by the
    [compute_returns()] test cases, one environment at a time:
    [rewards] holds [rewards[0..T-1]], [masks_next] holds [masks[1..T]] and
    [values] holds [value_predictions[0..T-1]].  They are what the stored
    returns are compared with; the code is [Storage.compute_returns]. *)

Module Expected.

(** [returns[T] = bootstrap], [returns[t] = rewards[t] + gamma * masks[t+1] *
    returns[t+1]]. *)
Fixpoint discounted_returns (gamma : float) (rewards masks_next : list float)
    (bootstrap : float) : list float :=
  match rewards, masks_next with
  | r :: rewards', m :: masks' =>
      let rest := discounted_returns gamma rewards' masks' bootstrap in
      fadd r (fmul (fmul gamma m) (default bootstrap (head rest))) :: rest
  | _, _ => [bootstrap]
  end.

(** The rolling advantage and the returns from step [t] on:
    [delta = rewards[t] + gamma * masks[t+1] * next_value - values[t]],
    [gae = delta + gamma * lambda * masks[t+1] * gae],
    [returns[t] = gae + values[t]], the value after the last step being the
    bootstrap value. *)
Fixpoint gae_returns (gamma lambda : float)
    (rewards masks_next values : list float) (bootstrap : float)
    : float * list float :=
  match rewards, masks_next, values with
  | r :: rewards', m :: masks', v :: values' =>
      let '(gae, rest) :=
        gae_returns gamma lambda rewards' masks' values' bootstrap in
      let next_value := default bootstrap (head values') in
      let delta := fsub (fadd r (fmul (fmul gamma m) next_value)) v in
      let gae' := fadd delta (fmul (fmul (fmul gamma lambda) m) gae) in
      (gae', fadd gae' v :: rest)
  | _, _, _ => (zero, [bootstrap])
  end.

End Expected.

(** ** The fixtures of the doctest cases of [storage.cpp] *)

Module StorageTest.

Import Storage.

Definition Discrete3 : ActionSpace := mkActionSpace "Discrete" [3].
Definition Box3 : ActionSpace := mkActionSpace "Box" [3].

Definition q (n : Z) (d : positive) : float := Fin (n # d).

(** [compute_returns()]: the vectors that the test case fills before each
    of its three [insert] calls, and the bootstrap values.  (The test keeps
    its masks in a vector of [int]; they are read here as the values 1 and
    0.) *)
Definition value_preds_rows : list (list float) :=
  [[q 0 1; q 1 1]; [q 1 1; q 2 1]; [q 2 1; q 3 1]].
Definition rewards_rows : list (list float) :=
  [[q 0 1; q 1 1]; [q 1 1; q 2 1]; [q 2 1; q 3 1]].
Definition masks_rows : list (list float) :=
  [[q 1 1; q 1 1]; [q 1 1; q 0 1]; [q 1 1; q 1 1]].
Definition next_values : list float := [q 0 1; q 1 1].

(** One [insert] call of the test case. *)
Definition insert_row (s : RolloutStorage)
    (value_preds rewards masks : list float) : option RolloutStorage :=
  observation ← zeros [2; 4];
  hidden_state ← zeros [2; 5];
  action ← zeros [2; 1];
  action_log_prob ← zeros [2; 1];
  value_prediction ← from_blob value_preds [2; 1];
  reward ← from_blob rewards [2; 1];
  mask ← from_blob masks [2; 1];
  Some (insert s observation hidden_state action action_log_prob
          value_prediction reward mask).

Fixpoint insert_rows (s : RolloutStorage)
    (value_preds rewards masks : list (list float)) : option RolloutStorage :=
  match value_preds, rewards, masks with
  | v :: value_preds', r :: rewards', m :: masks' =>
      s' ← insert_row s v r m; insert_rows s' value_preds' rewards' masks'
  | _, _, _ => Some s
  end.

(** A storage of 3 steps and 2 processes after the three [insert] calls. *)
Definition filled_storage : option RolloutStorage :=
  s ← new 3 2 [4] Discrete3 5;
  insert_rows s value_preds_rows rewards_rows masks_rows.

(** ... and after [compute_returns(next_values, use_gae, 0.6, 0.6)]. *)
Definition with_returns (use_gae : bool) : option RolloutStorage :=
  s ← filled_storage;
  next_value ← from_blob next_values [2; 1];
  Some (compute_returns s next_value use_gae (q 6 10) (q 6 10)).

(** [storage.get_returns()[t][e].item().toDouble()] for [t = 0..3] and
    [e = 0..1]. *)
Definition returns_grid (s : RolloutStorage) : list (list (option float)) :=
  (fun t => (fun e => item (get_returns s) [t; e]) <$> [0; 1])
    <$> [0; 1; 2; 3].

(** The values that the two test cases check, [t = 0..3] by [e = 0..1]. *)
Definition expected_without_gae : list (list float) :=
  [[q 132 100; q 22 10]; [q 22 10; q 2 1]; [q 2 1; q 36 10];
   [q 0 1; q 1 1]].

Definition expected_with_gae : list (list float) :=
  [[q 1032 1000; q 22 10]; [q 22 10; q 2 1]; [q 2 1; q 36 10];
   [q 0 1; q 1 1]].

(** Column [e] of a grid: the values of environment [e], step by step. *)
Definition column {A} (e : nat) (grid : list (list A)) : list A :=
  omap (fun row => row !! e) grid.

(** The inputs of the test, one environment at a time. *)
Definition env_rewards (e : nat) : list float := column e rewards_rows.
Definition env_masks_next (e : nat) : list float := column e masks_rows.
Definition env_values (e : nat) : list float := column e value_preds_rows.
Definition env_bootstrap (e : nat) : float := default zero (next_values !! e).

Definition same_list (l1 l2 : list float) : bool :=
  bool_decide (length l1 = length l2) &&
  forallb (fun p => same p.1 p.2) (zip l1 l2).

End StorageTest.

(** ** The training loop of [gym_client.cpp] *)

Module GymClient.

(** Hyperparameters (lines 17-45). *)
Definition batch_size : Z := 40.
Definition discount_factor : Q := 99 # 100.
Definition log_interval : Z := 10.
Definition reward_average_window_size : Z := 10.
Definition reward_clip_value : Q := 100.
Definition num_envs : Z := 8.
Definition render_reward_threshold : Q := 160.

(** The literal [1e-8] of the reward normalisation. *)
Definition epsilon : Q := 1 # 100000000.

(** A [std::vector<float>] or a vector of nested vectors. *)
#[warnings="-register-all"]
Inductive Nested :=
| Scalars (l : list float)
| Vectors (l : list Nested).

Fixpoint flatten_vector (input : Nested) : list float :=
  match input with
  | Scalars l => l
  | Vectors l => concat (map flatten_vector l)
  end.

(** Modelled from the spec: the response types are declared in
    [requests.h], which is not under [src/].  A step answers with an
    observation, rewards and done flags per environment; these are the fields
    that the loop reads, [observation], [real_reward] and [done] (the two
    response types differ in the nesting of [observation] only). *)
Record StepResponse := mkStepResponse {
  observation : Nested;
  real_reward : Nested;
  done : list (list bool)
}.

(** What the loop uses and [src/] does not hold, taken as parameters: the
    square root of [torch::sqrt] on a value that is not negative, the class
    [RunningMeanStd] (built for one dimension, so that its variance has one
    element) and the [RolloutStorage] that the client is compiled against
    (its constructor takes a device, unlike the one of [storage.cpp]). *)
Class Collaborators := {
  sqrtQ : Q -> Q;
  RunningMeanStd : Type;
  rms_update : RunningMeanStd -> list float -> RunningMeanStd;
  rms_get_variance : RunningMeanStd -> float;
  RolloutStorage : Type;
  storage_insert :
    RolloutStorage -> Tensor -> Tensor -> Tensor -> Tensor -> Tensor ->
    Tensor -> Tensor -> RolloutStorage
}.

(** [torch::sqrt] on one element. *)
Definition fsqrt `{Collaborators} (x : float) : float :=
  match x with
  | Fin v => if Qle_bool 0 v then Fin (sqrtQ v) else NaN
  | PInf => PInf
  | NInf | NaN => NaN
  end.

(** The variables of [main] that live across steps. *)
Record Client `{Collaborators} := mkClient {
  running_rewards : list float;
  episode_count : Z;
  render : bool;
  reward_history : list float;
  returns_rms : RunningMeanStd;
  returns : list float;
  storage : RolloutStorage
}.

Arguments mkClient {_} _ _ _ _ _ _ _.

(** Lines 163-168. *)
Definition start `{Collaborators} (rms : RunningMeanStd)
    (storage : RolloutStorage) : Client :=
  mkClient (replicate (Z.to_nat num_envs) zero) 0 false
    (replicate (Z.to_nat reward_average_window_size) zero) rms
    (replicate (Z.to_nat num_envs) zero) storage.

(** [torch::from_blob(v.data(), {n}, torch::kFloat)] as a list. *)
Definition from_blob_1d (v : list float) (n : Z) : option (list float) :=
  values <$> from_blob v [n].

(** [returns * discount_factor + reward_tensor] on tensors of one shape. *)
Definition discount_and_add (returns : list float) (gamma : Q)
    (reward_tensor : list float) : option (list float) :=
  if decide (length returns = length reward_tensor)
  then Some (zip_with (fun r x => fadd (fmul r (Fin gamma)) x)
               returns reward_tensor)
  else None.

(** [torch::clamp(reward_tensor / torch::sqrt(variance + 1e-8),
    -reward_clip_value, reward_clip_value)], the variance being a tensor of
    one element. *)
Definition normalize_one `{Collaborators} (variance : float) (x : float)
    : float :=
  clamp (fdiv x (fsqrt (fadd variance (Fin epsilon))))
    (- reward_clip_value) reward_clip_value.

Definition normalize `{Collaborators} (variance : float)
    (reward_tensor : list float) : list float :=
  normalize_one variance <$> reward_tensor.

(** [dones_vec[i][0]]. *)
Definition done_at (dones_vec : list (list bool)) (i : nat) : option bool :=
  d ← load dones_vec i; load d 0.

(** The body of the loop of lines 240-250 for environment [i]. *)
Definition track_env `{Collaborators} (real_rewards : list float)
    (dones_vec : list (list bool)) (c : Client) (i : nat) : option Client :=
  r ← load real_rewards i;
  running ← load (running_rewards c) i;
  running_rewards1 ← store (running_rewards c) i (fadd running r);
  d0 ← done_at dones_vec i;
  if (d0 : bool) then
    let slot :=
      int_rem (episode_count c) reward_average_window_size in
    if 0 <=? slot then
      reward_history1 ←
        store (reward_history c) (Z.to_nat slot) (fadd running r);
      running_rewards2 ← store running_rewards1 i zero;
      returns1 ← store (returns c) i zero;
      Some (mkClient running_rewards2 (episode_count c + 1) (render c)
              reward_history1 (returns_rms c) returns1 (storage c))
    else None
  else
    Some (mkClient running_rewards1 (episode_count c) (render c)
            (reward_history c) (returns_rms c) (returns c) (storage c)).

(** [for (int i = first; i < first + n; ++i) body]. *)
Fixpoint for_each {St} (body : St -> nat -> option St) (first n : nat)
    (s : St) : option St :=
  match n with
  | O => Some s
  | S n' => s' ← body s first; for_each body (S first) n' s'
  end.

Definition track `{Collaborators} (real_rewards : list float)
    (dones_vec : list (list bool)) (c : Client) : option Client :=
  for_each (track_env real_rewards dones_vec) 0 (Z.to_nat num_envs) c.

(** Lines 251-255 and the argument [1 - dones]. *)
Definition dones_row (dones_vec : list (list bool)) (i : nat) : option float :=
  d0 ← done_at dones_vec i;
  Some (of_Z (Z.b2z d0)).

Definition mask_tensor (dones_vec : list (list bool)) : option Tensor :=
  dones ← mapM (dones_row dones_vec) (seq 0 (Z.to_nat num_envs));
  Some (mkTensor [num_envs; 1] (FloatData (fsub one <$> dones))).

(** A collection step from the arrival of the step response on (lines
    210-263; the two branches on the observation's rank are the same text). *)
Definition collect `{Collaborators} (observation_space_shape : list Z)
    (act_result : list Tensor) (step_result : StepResponse) (c : Client)
    : option Client :=
  let observation_shape := num_envs :: observation_space_shape in
  let observation_vec := flatten_vector (observation step_result) in
  observation ← from_blob observation_vec observation_shape;
  let raw_reward_vec := flatten_vector (real_reward step_result) in
  reward_tensor ← from_blob_1d raw_reward_vec num_envs;
  returns1 ← discount_and_add (returns c) discount_factor reward_tensor;
  let rms1 := rms_update (returns_rms c) returns1 in
  let rewards := normalize (rms_get_variance rms1) reward_tensor in
  let real_rewards := flatten_vector (real_reward step_result) in
  let dones_vec := done step_result in
  c1 ← track real_rewards dones_vec
         (mkClient (running_rewards c) (episode_count c) (render c)
            (reward_history c) rms1 returns1 (storage c));
  mask ← mask_tensor dones_vec;
  hidden_state ← load act_result 3;
  action ← load act_result 1;
  action_log_prob ← load act_result 2;
  value ← load act_result 0;
  reward ← from_blob rewards [num_envs; 1];
  Some (mkClient (running_rewards c1) (episode_count c1) (render c1)
          (reward_history c1) (returns_rms c1) (returns c1)
          (storage_insert (storage c1) observation hidden_state action
             action_log_prob value reward mask)).

(** The sizes that the loop relies on: one running total and one discounted
    return per environment, a window of [reward_average_window_size] totals
    and a count that is not negative. *)
Definition consistent `{Collaborators} (c : Client) : Prop :=
  length (running_rewards c) = Z.to_nat num_envs /\
  length (returns c) = Z.to_nat num_envs /\
  length (reward_history c) = Z.to_nat reward_average_window_size /\
  0 <= episode_count c.

(** A policy output and a step response of the sizes that the loop reads:
    four tensors, an observation for every environment, and a real reward
    and a done flag for every environment. *)
Definition fits (observation_space_shape : list Z) (act_result : list Tensor)
    (step_result : StepResponse) : Prop :=
  Forall (fun d => 0 <= d) observation_space_shape /\
  (Z.to_nat (numel_of (num_envs :: observation_space_shape))
     <= length (flatten_vector (observation step_result)))%nat /\
  (Z.to_nat num_envs
     <= length (flatten_vector (real_reward step_result)))%nat /\
  (forall i, (i < Z.to_nat num_envs)%nat ->
     is_Some (done_at (done step_result) i)) /\
  (4 <= length act_result)%nat.

(** No done flag is set in a response. *)
Definition no_episode_ends (step_result : StepResponse) : bool :=
  forallb (fun i => match done_at (done step_result) i with
                    | Some true => false
                    | _ => true
                    end) (seq 0 (Z.to_nat num_envs)).

(** [std::accumulate(first, last, 0)]: the accumulator has the type of the
    initial value, [int], so every partial sum is converted to [int].  The
    addition is the exact one, which the [float] addition is as long as the
    accumulator and the sum are within [2^24] in absolute value. *)
Fixpoint accumulate_int (v : list float) (init : Z) : option Z :=
  match v with
  | [] => Some init
  | x :: v' => acc ← to_int (fadd (of_Z init) x); accumulate_int v' acc
  end.

(** Lines 303-304. *)
Definition average_reward `{Collaborators} (c : Client) : option float :=
  sum ← accumulate_int (reward_history c) 0;
  let divisor :=
    if episode_count c <? reward_average_window_size
    then episode_count c else reward_average_window_size in
  Some (fdiv (of_Z sum) (of_Z divisor)).

(** The reporting block (lines 289-307): the state after it and the value
    logged as [Reward], if the block runs. *)
Definition report `{Collaborators} (update : Z) (c : Client)
    : option (Client * option float) :=
  if (int_rem update log_interval =? 0) && (0 <? update) then
    average ← average_reward c;
    Some (mkClient (running_rewards c) (episode_count c)
            (fge average (Fin render_reward_threshold))
            (reward_history c) (returns_rms c) (returns c) (storage c),
          Some average)
  else Some (c, None).

(** Collection steps in sequence, one per pair of policy output and step
    response. *)
Fixpoint rollout `{Collaborators} (observation_space_shape : list Z)
    (steps : list (list Tensor * StepResponse)) (c : Client)
    : option Client :=
  match steps with
  | [] => Some c
  | (act_result, step_result) :: steps' =>
      c' ← collect observation_space_shape act_result step_result c;
      rollout observation_space_shape steps' c'
  end.

End GymClient.

(** ** Inputs on which the code is run *)

Module Inputs.

Import Storage StorageTest.

(** [t[0] = row]: the first slot of [t] overwritten with the elements of
    [row], as a caller does through the tensor returned by an accessor (the
    client's [set_first_observation] of line 161 fills slot 0 so). *)
Definition write_first (t row : Tensor) : Tensor :=
  mkTensor (sizes t)
    (FloatData (values row ++ drop (length (values row)) (values t))).

Definition with_first_observation (s : RolloutStorage) (row : Tensor)
    : RolloutStorage :=
  mkRolloutStorage (write_first (observations s) row) (hidden_states s)
    (rewards s) (value_predictions s) (returns s) (action_log_probs s)
    (actions s) (masks s) (num_steps s) (step s).

(** A storage of 3 steps and 2 processes whose slot 0 holds a first
    observation of ones. *)
Definition started_storage : option RolloutStorage :=
  s ← new 3 2 [4] Discrete3 5;
  first ← ones [2; 4];
  Some (with_first_observation s first).

(** The storage of the [insert()] test case and an [insert] whose arguments
    have the shapes of that storage, every value being [3/2] (the test draws
    them in [1, 2)), the action [1] and the mask [1]. *)
Definition insert_test_storage : option RolloutStorage :=
  new 3 4 [5; 2] Discrete3 10.

Definition after_insert : option RolloutStorage :=
  s ← insert_test_storage;
  observation ← full [4; 5; 2] (q 3 2);
  hidden_state ← full [4; 10] (q 3 2);
  action ← full [4; 1] (q 1 1);
  action_log_prob ← full [4; 1] (q 3 2);
  value_prediction ← full [4; 1] (q 3 2);
  reward ← full [4; 1] (q 3 2);
  mask ← ones [4; 1];
  Some (insert s observation hidden_state action action_log_prob
          value_prediction reward mask).

(** A grid of read values against the expected ones. *)
Definition grid_matches (grid : list (list (option float)))
    (expected : list (list float)) : bool :=
  bool_decide (length grid = length expected) &&
  forallb (fun p =>
    bool_decide (length p.1 = length p.2) &&
    forallb (fun c => match c.1 with Some x => same x c.2 | None => false end)
      (zip p.1 p.2)) (zip grid expected).

End Inputs.

Module ClientInputs.

Import GymClient.

(** Collaborators to run the bookkeeping with: the running moments keep the
    last batch they were given and report a variance of one, the storage
    keeps the last reward tensor it was given. *)
#[export] Instance LastSeen : Collaborators := {
  sqrtQ := fun x => x;
  RunningMeanStd := list float;
  rms_update := fun _ batch => batch;
  rms_get_variance := fun _ => one;
  RolloutStorage := list Tensor;
  storage_insert := fun _ _ _ _ _ _ reward _ => [reward]
}.

Definition act_result : list Tensor :=
  replicate 4 (mkTensor [num_envs; 1]
                 (FloatData (replicate (Z.to_nat num_envs) zero))).

(** A response in which every environment reports the real reward [r] and
    the done flag [d], with observations of two zeros. *)
Definition response (r : float) (d : bool) : StepResponse :=
  mkStepResponse
    (Vectors (replicate (Z.to_nat num_envs) (Scalars [zero; zero])))
    (Vectors (replicate (Z.to_nat num_envs) (Scalars [r])))
    (replicate (Z.to_nat num_envs) [d]).

Definition no_batches : @RunningMeanStd LastSeen := [].
Definition no_rewards : @RolloutStorage LastSeen := [].

Definition started : Client := start no_batches no_rewards.

(** Eleven updates of [batch_size] steps in which no episode ends. *)
Definition quiet_steps : list (list Tensor * StepResponse) :=
  replicate (Z.to_nat (11 * batch_size)) (act_result, response one false).

(** Eleven updates of [batch_size] steps in each of which every environment
    ends an episode of total [1/2]: 3520 episodes. *)
Definition busy_steps : list (list Tensor * StepResponse) :=
  replicate (Z.to_nat (11 * batch_size))
    (act_result, response (Fin (1 # 2)) true).

(** The mean of a list of values. *)
Definition mean (l : list float) : float :=
  fdiv (foldr fadd zero l) (of_Z (Z.of_nat (length l))).

End ClientInputs.

(** ** More of the training loop of [gym_client.cpp] *)

Module GymClientLoop.

Import GymClient.

(** [const int max_frames = 10e+7] and [const bool use_lr_decay = false]. *)
Definition max_frames : Z := 100000000.
Definition use_lr_decay : bool := false.

(** [a * b] on [int]: a product out of range has no defined result. *)
Definition int_mul (a b : Z) : option Z :=
  if (INT_MIN <=? a * b) && (a * b <=? INT_MAX) then Some (a * b) else None.

(** Line 172. *)
Definition num_updates : Z := Z.quot max_frames (batch_size * num_envs).

(** The actions of environment [i] (lines 189-199): one value for a
    discrete space, [action_space_shape[0]] values otherwise.  The counter
    [j] is an [int]. *)
Definition action_row (space : ActionSpace) (actions_array : list float)
    (i : nat) : option (list float) :=
  if String.eqb (type space) "Discrete" then
    a ← load actions_array i; Some [a]
  else
    n ← load (shape space) 0;
    if INT_MAX <? n then None
    else mapM (fun j => load actions_array (i * Z.to_nat n + j))
           (seq 0 (Z.to_nat n)).

(** Lines 184-200: the policy's action tensor as one vector of floats per
    environment. *)
Definition convert_actions (space : ActionSpace) (action : Tensor)
    : option (list (list float)) :=
  actions_tensor ← to action kFloat;
  let actions_array := values actions_tensor in
  mapM (action_row space actions_array) (seq 0 (Z.to_nat num_envs)).

(** Lines 277-285, for either value of the flag. *)
Definition decay_level_of (use_lr_decay : bool) (update num_updates : Z)
    : float :=
  if use_lr_decay
  then fsub (Fin 1) (fdiv (of_Z update) (of_Z num_updates))
  else Fin 1.

Definition decay_level : Z -> Z -> float := decay_level_of use_lr_decay.

(** Line 291: [(update + 1) * batch_size * num_envs] on [int]. *)
Definition total_steps (update : Z) : option Z :=
  frames ← int_mul (update + 1) batch_size; int_mul frames num_envs.

(** Line 294: [total_steps / (run_time_secs.count() + 1e-9)]. *)
Definition fps (total_steps run_time_secs : Z) : float :=
  fdiv (of_Z total_steps)
    (fadd (of_Z run_time_secs) (Fin (1 # 1000000000))).

(** The total of the episode that environment [i] ends in a step, if it
    ends one: its running total before the step plus the step's real reward. *)
Definition finished_total `{Collaborators} (real_rewards : list float)
    (dones_vec : list (list bool)) (c : Client) (i : nat) : option float :=
  match done_at dones_vec i with
  | Some true =>
      r ← real_rewards !! i;
      running ← running_rewards c !! i;
      Some (fadd running r)
  | _ => None
  end.

(** The totals of the episodes that end in a step, environments
    [first .. first + n - 1] in order. *)
Definition finished_totals `{Collaborators} (real_rewards : list float)
    (dones_vec : list (list bool)) (c : Client) (first n : nat)
    : list float :=
  omap (finished_total real_rewards dones_vec c) (seq first n).

(** The window holds the log [totals] of finished episodes: the count is the
    length of the log, each of the last [reward_average_window_size] totals
    sits at the slot of its index modulo the window size, and the slots
    never written hold zero. *)
Definition window_holds `{Collaborators} (totals : list float) (c : Client)
    : Prop :=
  episode_count c = Z.of_nat (length totals) /\
  length (reward_history c) = Z.to_nat reward_average_window_size /\
  (forall k : nat,
     (k < length totals)%nat ->
     (length totals <= k + Z.to_nat reward_average_window_size)%nat ->
     reward_history c !! (k mod Z.to_nat reward_average_window_size)%nat
       = totals !! k) /\
  (forall j : nat,
     (length totals <= j)%nat ->
     (j < Z.to_nat reward_average_window_size)%nat ->
     reward_history c !! j = Some zero).

(** The log of the episodes that end during a sequence of collection steps,
    in the order in which the loop counts them. *)
Fixpoint rollout_totals `{Collaborators} (observation_space_shape : list Z)
    (steps : list (list Tensor * StepResponse)) (c : Client) : list float :=
  match steps with
  | [] => []
  | (act_result, step_result) :: steps' =>
      finished_totals (flatten_vector (real_reward step_result))
        (done step_result) c 0 (Z.to_nat num_envs) ++
      match collect observation_space_shape act_result step_result c with
      | Some c' => rollout_totals observation_space_shape steps' c'
      | None => []
      end
  end.

End GymClientLoop.

(** ** What an array holds *)

Module Contents.


(** The largest magnitude up to which every integer is a [float]. *)
Definition FLOAT_EXACT : Z := 2 ^ 24.

End Contents.

(** ** The training loop on the storage of [storage.cpp] *)

Module ClientOnStorage.

Import GymClient.

(** The collaborators of the loop when its storage is the [RolloutStorage]
    of [storage.cpp] and [insert] the method of lines 50-56; the square root
    and the running moments stay parameters. *)
Definition on_storage_cpp (sqrtQ : Q -> Q) (RMS : Type)
    (update : RMS -> list float -> RMS) (variance : RMS -> float)
    : Collaborators :=
  {| sqrtQ := sqrtQ;
     RunningMeanStd := RMS;
     rms_update := update;
     rms_get_variance := variance;
     RolloutStorage := Storage.RolloutStorage;
     storage_insert := Storage.insert |}.




End ClientOnStorage.

(** * Properties *)

(** Case analysis on the first computation of a sequence that succeeded. *)
Ltac bind_inv H :=
  match type of H with
  | (?m ≫= _) = Some _ =>
      let E := fresh "E" in
      destruct m eqn:E; [cbn [mbind option_bind] in H | discriminate H]
  end.

(** ** Tensors *)

Module TorchFacts.

Lemma full_inv (shape : list Z) (v : float) (t : Tensor) :
  full shape v = Some t ->
  sizes t = shape /\
  elements t = FloatData (replicate (Z.to_nat (numel_of shape)) v).
Proof.
  unfold full. destruct (forallb _ shape); [|discriminate].
  intros [= <-]. split; reflexivity.
Qed.

Lemma full_filled_with (shape : list Z) (v : float) (t : Tensor) :
  full shape v = Some t -> filled_with t v.
Proof.
  intros Hfull. destruct (full_inv _ _ _ Hfull) as [Hs He].
  unfold filled_with, values, numel. rewrite He, Hs. reflexivity.
Qed.

Lemma full_dtype (shape : list Z) (v : float) (t : Tensor) :
  full shape v = Some t -> dtype t = kFloat.
Proof.
  intros Hfull. destruct (full_inv _ _ _ Hfull) as [_ He].
  unfold dtype. rewrite He. reflexivity.
Qed.

Lemma mapM_to_long_zero (n : nat) :
  mapM to_long (replicate n zero) = Some (replicate n 0).
Proof.
  induction n as [|n IH]; [reflexivity|].
  change (mapM to_long (replicate (S n) zero))
    with (y ← to_long zero; k ← mapM to_long (replicate n zero); Some (y :: k)).
  rewrite IH. reflexivity.
Qed.

(** Converting a tensor of zeros to [kLong] gives integral zeros. *)
Lemma to_long_zeros (shape : list Z) (t : Tensor) :
  zeros shape = Some t ->
  to t kLong =
    Some (mkTensor shape (LongData (replicate (Z.to_nat (numel_of shape)) 0))).
Proof.
  intros Hz. destruct (full_inv _ _ _ Hz) as [Hs He].
  unfold to. rewrite He, Hs, mapM_to_long_zero. reflexivity.
Qed.

Lemma long_zeros_filled_with (shape : list Z) :
  filled_with
    (mkTensor shape (LongData (replicate (Z.to_nat (numel_of shape)) 0))) zero.
Proof.
  unfold filled_with, values, numel. cbn [elements sizes].
  rewrite fmap_replicate. reflexivity.
Qed.

End TorchFacts.

(** ** The rollout storage *)

Module StorageFacts.

Import Storage TorchFacts.

(** What the constructor stores in each member. *)
Lemma new_inv (T N : Z) (obs_shape : list Z) (a : ActionSpace) (H : Z)
    (s : RolloutStorage) :
  new T N obs_shape a H = Some s ->
  zeros ([uint_add T 1; N] ++ obs_shape) = Some (observations s) /\
  zeros [uint_add T 1; N; H] = Some (hidden_states s) /\
  zeros [T; N; 1] = Some (rewards s) /\
  zeros [uint_add T 1; N; 1] = Some (value_predictions s) /\
  zeros [uint_add T 1; N; 1] = Some (returns s) /\
  zeros [T; N; 1] = Some (action_log_probs s) /\
  (exists num_actions t,
     (if String.eqb (type a) "Discrete" then Some 1
      else long_to_int <$> load (shape a) 0) = Some num_actions /\
     zeros [T; N; num_actions] = Some t /\
     (if String.eqb (type a) "Discrete" then to t kLong else Some t)
       = Some (actions s)) /\
  ones [uint_add T 1; N; 1] = Some (masks s) /\
  num_steps s = T /\ step s = 0.
Proof.
  unfold new. intros Hnew. cbv zeta in Hnew.
  repeat bind_inv Hnew.
  injection Hnew as <-. cbn.
  repeat split; try assumption; try reflexivity. eauto 10.
Qed.

(** None of the three mutators changes the storage. *)
Lemma call_unchanged (s : RolloutStorage) (c : Call) : call s c = s.
Proof. destruct c; reflexivity. Qed.

Lemma run_unchanged (cs : list Call) (s : RolloutStorage) : run s cs = s.
Proof.
  unfold run. induction cs as [|c cs IH]; [reflexivity|].
  cbn [foldl]. rewrite call_unchanged. exact IH.
Qed.

Lemma new_actions (T N : Z) (obs_shape : list Z) (a : ActionSpace) (H : Z)
    (s : RolloutStorage) :
  new T N obs_shape a H = Some s ->
  filled_with (actions s) zero /\
  dtype (actions s) =
    (if String.eqb (type a) "Discrete" then kLong else kFloat).
Proof.
  intros Hnew.
  destruct (new_inv _ _ _ _ _ _ Hnew)
    as (_ & _ & _ & _ & _ & _ & (na & t & _ & Ht & Hact) & _).
  destruct (String.eqb (type a) "Discrete").
  - rewrite (to_long_zeros _ _ Ht) in Hact. injection Hact as <-.
    split; [apply long_zeros_filled_with | reflexivity].
  - injection Hact as <-.
    split; [exact (full_filled_with _ _ _ Ht) | exact (full_dtype _ _ _ Ht)].
Qed.

Lemma new_freshly_filled (T N : Z) (obs_shape : list Z) (a : ActionSpace)
    (H : Z) (s : RolloutStorage) :
  new T N obs_shape a H = Some s -> freshly_filled s.
Proof.
  intros Hnew.
  destruct (new_actions _ _ _ _ _ _ Hnew) as [Hact _].
  destruct (new_inv _ _ _ _ _ _ Hnew)
    as (Ho & Hh & Hr & Hv & Hret & Hl & _ & Hm & _).
  unfold freshly_filled, zeros, ones in *.
  repeat split; eauto using full_filled_with.
Qed.

End StorageFacts.

Module StorageClaims.

Import Storage StorageTest Inputs Contents TorchFacts StorageFacts.



(** C10.  Whatever sequence of [insert], [compute_returns] and
    [after_update] calls, with whatever arguments, is run on a constructed
    storage, the storage is the constructed one: the cursor is 0, [masks]
    holds ones and every other array holds zeros. *)
Theorem mutators_leave_fresh_storage
    (T N : Z) (obs_shape : list Z) (a : ActionSpace) (H : Z)
    (s0 : RolloutStorage) (calls : list Call) :
  new T N obs_shape a H = Some s0 ->
  run s0 calls = s0 /\
  step (run s0 calls) = 0 /\
  freshly_filled (run s0 calls).
Proof.
  intros Hnew. rewrite run_unchanged.
  destruct (new_inv _ _ _ _ _ _ Hnew)
    as (_ & _ & _ & _ & _ & _ & _ & _ & _ & Hstep).
  repeat split; try exact Hstep; apply (new_freshly_filled _ _ _ _ _ _ Hnew).
Qed.

Lemma mutators_leave_fresh_storage_witness :
  exists s0 next_value,
    new 3 2 [4] Discrete3 5 = Some s0 /\
    ones [2; 1] = Some next_value /\
    let calls :=
      [CallInsert next_value next_value next_value next_value next_value
         next_value next_value;
       CallComputeReturns next_value true (q 6 10) (q 6 10);
       CallAfterUpdate] in
    run s0 calls = s0 /\ step (run s0 calls) = 0 /\
    freshly_filled (run s0 calls).
Proof.
  eexists. eexists. split; [vm_compute; reflexivity|].
  split; [vm_compute; reflexivity|].
  apply (mutators_leave_fresh_storage 3 2 [4] Discrete3 5).
  vm_compute. reflexivity.
Defined.

(** C6 (as amended).  The constructor gives [value_predictions] the shape
    [[T+1, N, 1]], [T+1] being computed on [unsigned int]: it is the shape of
    [returns] and [masks], while [rewards] and [action_log_probs] have
    [[T, N, 1]]. *)
Theorem value_predictions_shape
    (T N : Z) (obs_shape : list Z) (a : ActionSpace) (H : Z)
    (s : RolloutStorage) :
  new T N obs_shape a H = Some s ->
  sizes (get_value_predictions s) = [uint_add T 1; N; 1] /\
  (T + 1 < UINT_MODULUS -> uint_add T 1 = T + 1) /\
  sizes (get_returns s) = sizes (get_value_predictions s) /\
  sizes (get_masks s) = sizes (get_value_predictions s) /\
  sizes (get_rewards s) = [T; N; 1] /\
  sizes (get_action_log_probs s) = [T; N; 1].
Proof.
  intros Hnew.
  destruct (new_inv _ _ _ _ _ _ Hnew)
    as (_ & _ & Hr & Hv & Hret & Hl & _ & Hm & _).
  unfold zeros, ones, get_value_predictions, get_returns, get_masks,
    get_rewards, get_action_log_probs in *.
  rewrite (proj1 (full_inv _ _ _ Hv)), (proj1 (full_inv _ _ _ Hret)),
    (proj1 (full_inv _ _ _ Hm)), (proj1 (full_inv _ _ _ Hr)),
    (proj1 (full_inv _ _ _ Hl)).
  repeat split; try reflexivity.
  intros Hlt. unfold uint_add.
  assert (0 <= T) as HT.
  { unfold full in Hr. destruct (forallb _ _) eqn:Hall; [|discriminate].
    cbn [forallb] in Hall. apply andb_prop in Hall as [HT _].
    apply Z.leb_le, HT. }
  apply Z.mod_small. lia.
Qed.

Lemma value_predictions_shape_witness :
  exists s,
    new 3 5 [5; 2] Discrete3 10 = Some s /\
    sizes (get_value_predictions s) = [uint_add 3 1; 5; 1] /\
    (3 + 1 < UINT_MODULUS -> uint_add 3 1 = 3 + 1) /\
    sizes (get_returns s) = sizes (get_value_predictions s) /\
    sizes (get_masks s) = sizes (get_value_predictions s) /\
    sizes (get_rewards s) = [3; 5; 1] /\
    sizes (get_action_log_probs s) = [3; 5; 1].
Proof.
  eexists. split; [vm_compute; reflexivity|].
  apply (value_predictions_shape 3 5 [5; 2] Discrete3 10).
  vm_compute. reflexivity.
Defined.

(** C6 as stated fails on the storage of the size test: for [T = 3] and
    [N = 5] the first extent of [value_predictions] is 4, as the test case
    checks, and not 3. *)
Lemma value_predictions_shape_counterexample :
  exists s,
    new 3 5 [5; 2] Discrete3 10 = Some s /\
    size (get_value_predictions s) 0 = Some 4 /\
    sizes (get_value_predictions s) <> [3; 5; 1].
Proof.
  eexists. split; [vm_compute; reflexivity|].
  split; [reflexivity | discriminate].
Qed.

(** C1 on the input of its test case.  After the three [insert] calls and
    [compute_returns(next_value, false, 0.6, 0.6)] the storage is still the
    constructed one and every return reads 0, while the recursion
    [returns[t] = rewards[t] + gamma * masks[t+1] * returns[t+1]] from
    [returns[3] = next_value] gives the values the test case checks,
    [[1.32, 2.2], [2.2, 2], [2, 3.6], [0, 1]]. *)
Theorem compute_returns_without_gae_on_test_input :
  exists s0 s,
    new 3 2 [4] Discrete3 5 = Some s0 /\
    with_returns false = Some s /\
    s = s0 /\
    returns_grid s = replicate 4 [Some zero; Some zero] /\
    grid_matches (returns_grid s) expected_without_gae = false /\
    (forall e, (e < 2)%nat ->
       same_list
         (Expected.discounted_returns (q 6 10) (env_rewards e)
            (env_masks_next e) (env_bootstrap e))
         (column e expected_without_gae) = true).
Proof.
  eexists. eexists. split; [vm_compute; reflexivity|].
  split; [vm_compute; reflexivity|].
  split; [reflexivity|]. split; [reflexivity|]. split; [reflexivity|].
  intros [|[|e]] He; [reflexivity | reflexivity | lia].
Qed.

(** C2 on the input of its test case.  After the three [insert] calls and
    [compute_returns(next_value, true, 0.6, 0.6)] the storage is still the
    constructed one and every return reads 0, while the recursion on the
    rolling advantage gives the values the test case checks,
    [[1.032, 2.2], [2.2, 2], [2, 3.6], [0, 1]]. *)
Theorem compute_returns_with_gae_on_test_input :
  exists s0 s,
    new 3 2 [4] Discrete3 5 = Some s0 /\
    with_returns true = Some s /\
    s = s0 /\
    returns_grid s = replicate 4 [Some zero; Some zero] /\
    grid_matches (returns_grid s) expected_with_gae = false /\
    (forall e, (e < 2)%nat ->
       same_list
         (Expected.gae_returns (q 6 10) (q 6 10) (env_rewards e)
            (env_masks_next e) (env_values e) (env_bootstrap e)).2
         (column e expected_with_gae) = true).
Proof.
  eexists. eexists. split; [vm_compute; reflexivity|].
  split; [vm_compute; reflexivity|].
  split; [reflexivity|]. split; [reflexivity|]. split; [reflexivity|].
  intros [|[|e]] He; [reflexivity | reflexivity | lia].
Qed.

(** C3 on a storage of 3 steps and 4 processes, as in the [insert()] test
    case.  After an [insert] of values that are all 3/2 (action and mask 1)
    the storage is the constructed one: the cursor is 0, slot 0 of
    [rewards], [actions], [action_log_probs] and [value_predictions] and slot
    1 of [observations] and [hidden_states] read 0, not the inserted
    values. *)
Theorem insert_on_test_input :
  exists s0 s,
    insert_test_storage = Some s0 /\
    after_insert = Some s /\
    s = s0 /\
    step s = 0 /\
    item (get_rewards s) [0; 0; 0] = Some zero /\
    item (get_actions s) [0; 0; 0] = Some zero /\
    item (get_action_log_probs s) [0; 0; 0] = Some zero /\
    item (get_value_predictions s) [0; 0; 0] = Some zero /\
    item (get_observations s) [1; 0; 0; 0] = Some zero /\
    item (get_hidden_states s) [1; 0; 0] = Some zero /\
    same zero (q 3 2) = false /\ same zero (q 1 1) = false.
Proof.
  eexists. eexists. split; [vm_compute; reflexivity|].
  split; [vm_compute; reflexivity|].
  repeat split.
Qed.

(** C4 on a storage whose slot 0 holds a first observation of ones.
    [after_update] returns the storage as it is: slot 0 of [observations]
    still reads 1 afterwards, while slot 3 (= T) read 0 before the call. *)
Theorem after_update_on_started_storage :
  exists s,
    started_storage = Some s /\
    after_update s = s /\
    item (get_observations s) [3; 0; 0] = Some zero /\
    item (get_observations (after_update s)) [0; 0; 0] = Some one /\
    same one zero = false.
Proof.
  eexists. split; [vm_compute; reflexivity|].
  repeat split.
Qed.

End StorageClaims.

(** ** The client's bookkeeping *)

Module ClientFacts.

Import GymClient.

Section Bookkeeping.

Context `{Collaborators}.

Lemma store_inv {A} (v : list A) (i : nat) (x : A) (v' : list A) :
  store v i x = Some v' -> (i < length v)%nat /\ v' = <[i := x]> v.
Proof.
  unfold store. destruct (decide (i < length v)%nat); [|discriminate].
  intros [= <-]. split; [assumption | reflexivity].
Qed.

Lemma store_succeeds {A} (v : list A) (i : nat) (x : A) :
  (i < length v)%nat -> store v i x = Some (<[i := x]> v).
Proof.
  intros Hi. unfold store.
  destruct (decide (i < length v)%nat); [reflexivity | lia].
Qed.

(** The window slot of the next finished episode is in range. *)
Lemma slot_in_window (count : Z) :
  0 <= count ->
  0 <= int_rem count reward_average_window_size < reward_average_window_size.
Proof.
  intros Hc. unfold int_rem, reward_average_window_size.
  rewrite Z.rem_mod_nonneg by lia. apply Z.mod_pos_bound. lia.
Qed.

(** What one iteration of the tracking loop does to the client. *)
Lemma track_env_inv (real_rewards : list float) (dones_vec : list (list bool))
    (c c' : Client) (i : nat) :
  track_env real_rewards dones_vec c i = Some c' ->
  exists r running d0,
    real_rewards !! i = Some r /\
    running_rewards c !! i = Some running /\
    done_at dones_vec i = Some d0 /\
    returns_rms c' = returns_rms c /\
    storage c' = storage c /\
    render c' = render c /\
    if (d0 : bool) then
      let slot := int_rem (episode_count c) reward_average_window_size in
      0 <= slot /\
      (Z.to_nat slot < length (reward_history c))%nat /\
      (i < length (returns c))%nat /\
      reward_history c' =
        <[Z.to_nat slot := fadd running r]> (reward_history c) /\
      running_rewards c' = <[i := zero]> (running_rewards c) /\
      returns c' = <[i := zero]> (returns c) /\
      episode_count c' = episode_count c + 1
    else
      reward_history c' = reward_history c /\
      running_rewards c' = <[i := fadd running r]> (running_rewards c) /\
      returns c' = returns c /\
      episode_count c' = episode_count c.
Proof.
  unfold track_env, load. intros Ht.
  do 4 bind_inv Ht.
  apply store_inv in E1 as [Hi ->].
  exists f, f0, b. destruct b.
  - cbv zeta in Ht |- *.
    destruct (0 <=? int_rem (episode_count c) reward_average_window_size)
      eqn:Hslot; [|discriminate].
    do 3 bind_inv Ht. injection Ht as <-. cbn.
    apply store_inv in E1 as [Hs ->].
    apply store_inv in E3 as [_ ->].
    apply store_inv in E4 as [Hr ->].
    rewrite list_insert_insert_eq.
    repeat split; try assumption. apply Z.leb_le, Hslot.
  - injection Ht as <-. cbn. repeat split; assumption.
Qed.

(** The tracking loop over environments [first .. first + n - 1]: the
    discounted return of an environment is zeroed exactly when its done flag
    is set, and nothing else of it changes. *)
Lemma for_each_track_returns (real_rewards : list float)
    (dones_vec : list (list bool)) (n : nat) :
  forall (first : nat) (c c' : Client),
    for_each (track_env real_rewards dones_vec) first n c = Some c' ->
    returns_rms c' = returns_rms c /\
    storage c' = storage c /\
    render c' = render c /\
    forall i : nat,
      returns c' !! i =
        if decide (first <= i < first + n)%nat
        then match done_at dones_vec i with
             | Some true => Some zero
             | _ => returns c !! i
             end
        else returns c !! i.
Proof.
  induction n as [|n IH]; intros first c c' Hloop.
  - injection Hloop as <-. repeat split. intros i.
    destruct (decide _); [lia | reflexivity].
  - cbn [for_each] in Hloop. bind_inv Hloop.
    destruct (track_env_inv _ _ _ _ _ E)
      as (r & running & d0 & _ & _ & Hd & Hrms & Hst & Hren & Hcase).
    destruct (IH _ _ _ Hloop) as (Hrms' & Hst' & Hren' & Hret').
    repeat split; try congruence. intros i. rewrite Hret'.
    destruct (decide (i = first)) as [-> | Hne].
    + destruct (decide (S first <= first < S first + n)%nat); [lia|].
      destruct (decide (first <= first < first + S n)%nat); [|lia].
      rewrite Hd. destruct d0.
      * destruct Hcase as (_ & _ & Hlen & _ & _ & -> & _).
        apply list_lookup_insert_eq, Hlen.
      * destruct Hcase as (_ & _ & -> & _). reflexivity.
    + assert (returns c0 !! i = returns c !! i) as Hsame.
      { destruct d0.
        - destruct Hcase as (_ & _ & _ & _ & _ & -> & _).
          apply list_lookup_insert_ne. congruence.
        - destruct Hcase as (_ & _ & -> & _). reflexivity. }
      rewrite Hsame.
      destruct (decide (S first <= i < S first + n)%nat),
        (decide (first <= i < first + S n)%nat); try lia; reflexivity.
Qed.

(** While no done flag is set, the tracking loop leaves the window of
    episode totals and the episode count alone. *)
Lemma for_each_track_quiet (real_rewards : list float)
    (dones_vec : list (list bool)) (n : nat) :
  forall (first : nat) (c c' : Client),
    (forall i, (first <= i < first + n)%nat ->
       done_at dones_vec i <> Some true) ->
    for_each (track_env real_rewards dones_vec) first n c = Some c' ->
    reward_history c' = reward_history c /\
    episode_count c' = episode_count c.
Proof.
  induction n as [|n IH]; intros first c c' Hquiet Hloop.
  - injection Hloop as <-. split; reflexivity.
  - cbn [for_each] in Hloop. bind_inv Hloop.
    destruct (track_env_inv _ _ _ _ _ E)
      as (r & running & d0 & _ & _ & Hd & _ & _ & _ & Hcase).
    destruct d0; [exfalso; apply (Hquiet first); [lia | exact Hd]|].
    destruct Hcase as (Hh & _ & _ & Hc).
    destruct (IH (S first) c0 c') as [Hh' Hc'];
      [|exact Hloop|split; congruence].
    intros i Hi. apply Hquiet. lia.
Qed.

(** What a collection step computes, in the order of the source. *)
Lemma collect_inv (observation_space_shape : list Z)
    (act_result : list Tensor) (step_result : StepResponse) (c c' : Client) :
  collect observation_space_shape act_result step_result c = Some c' ->
  exists obs raw returns1 c1 mask hidden_state action
         action_log_prob value reward,
    from_blob (flatten_vector (observation step_result))
      (num_envs :: observation_space_shape) = Some obs /\
    from_blob_1d (flatten_vector (real_reward step_result)) num_envs
      = Some raw /\
    discount_and_add (returns c) discount_factor raw = Some returns1 /\
    track (flatten_vector (real_reward step_result)) (done step_result)
      (mkClient (running_rewards c) (episode_count c) (render c)
         (reward_history c) (rms_update (returns_rms c) returns1) returns1
         (storage c)) = Some c1 /\
    mask_tensor (done step_result) = Some mask /\
    act_result !! 3%nat = Some hidden_state /\
    act_result !! 1%nat = Some action /\
    act_result !! 2%nat = Some action_log_prob /\
    act_result !! 0%nat = Some value /\
    from_blob
      (normalize (rms_get_variance (rms_update (returns_rms c) returns1)) raw)
      [num_envs; 1] = Some reward /\
    c' = mkClient (running_rewards c1) (episode_count c1) (render c1)
           (reward_history c1) (returns_rms c1) (returns c1)
           (storage_insert (storage c1) obs hidden_state action
              action_log_prob value reward mask).
Proof.
  unfold collect, load. cbv zeta. intros Hc.
  do 10 bind_inv Hc. injection Hc as <-.
  eexists _, _, _, _, _, _, _, _, _, _. repeat split; eassumption.
Qed.

Lemma no_episode_ends_spec (step_result : StepResponse) :
  no_episode_ends step_result = true ->
  forall i, (0 <= i < 0 + Z.to_nat num_envs)%nat ->
    done_at (done step_result) i <> Some true.
Proof.
  unfold no_episode_ends. rewrite forallb_forall. intros Hall i Hi Hd.
  specialize (Hall i). rewrite Hd in Hall.
  enough (false = true) by discriminate. apply Hall.
  apply in_seq. lia.
Qed.

Lemma collect_quiet (observation_space_shape : list Z)
    (act_result : list Tensor) (step_result : StepResponse) (c c' : Client) :
  no_episode_ends step_result = true ->
  collect observation_space_shape act_result step_result c = Some c' ->
  reward_history c' = reward_history c /\
  episode_count c' = episode_count c.
Proof.
  intros Hquiet Hc.
  destruct (collect_inv _ _ _ _ _ Hc)
    as (? & ? & ? & c1 & ? & ? & ? & ? & ? & ? & _ & _ & _ & Ht & _ & _ & _ &
        _ & _ & _ & ->).
  cbn [reward_history episode_count].
  exact (for_each_track_quiet _ _ _ _ _ _
           (no_episode_ends_spec _ Hquiet) Ht).
Qed.

Lemma rollout_quiet (observation_space_shape : list Z)
    (steps : list (list Tensor * StepResponse)) :
  forallb (fun p => no_episode_ends p.2) steps = true ->
  forall c c' : Client,
    rollout observation_space_shape steps c = Some c' ->
    reward_history c' = reward_history c /\
    episode_count c' = episode_count c.
Proof.
  induction steps as [|[act_result step_result] steps IH];
    intros Hquiet c c' Hroll.
  - injection Hroll as <-. split; reflexivity.
  - cbn [forallb] in Hquiet. apply andb_prop in Hquiet as [Hq Hqs].
    cbn [rollout] in Hroll. bind_inv Hroll.
    destruct (collect_quiet _ _ _ _ _ Hq E) as [Hh Hc].
    destruct (IH Hqs _ _ Hroll) as [Hh' Hc']. split; congruence.
Qed.

(** When an episode ends, its total goes to the window slot
    [episode_count % reward_average_window_size], the count grows by one and
    the running total and the discounted return of the environment restart
    from zero. *)
Lemma episode_end_bookkeeping (real_rewards : list float)
    (dones_vec : list (list bool)) (c c' : Client) (i : nat) :
  track_env real_rewards dones_vec c i = Some c' ->
  done_at dones_vec i = Some true ->
  exists r running,
    real_rewards !! i = Some r /\
    running_rewards c !! i = Some running /\
    reward_history c' =
      <[Z.to_nat (int_rem (episode_count c) reward_average_window_size)
          := fadd running r]> (reward_history c) /\
    episode_count c' = episode_count c + 1 /\
    running_rewards c' !! i = Some zero /\
    returns c' !! i = Some zero.
Proof.
  intros Ht Hd.
  destruct (track_env_inv _ _ _ _ _ Ht)
    as (r & running & d0 & Hr & Hrun & Hd' & _ & _ & _ & Hcase).
  rewrite Hd in Hd'. injection Hd' as <-.
  destruct Hcase as (_ & _ & Hlen & Hh & Hrr & Hret & Hc).
  exists r, running. repeat split; try assumption.
  - rewrite Hrr. apply list_lookup_insert_eq.
    apply lookup_lt_is_Some. eauto.
  - rewrite Hret. apply list_lookup_insert_eq, Hlen.
Qed.

Lemma from_blob_inv (blob : list float) (shape : list Z) (t : Tensor) :
  from_blob blob shape = Some t ->
  sizes t = shape /\
  values t = take (Z.to_nat (numel_of shape)) blob /\
  (Z.to_nat (numel_of shape) <= length blob)%nat.
Proof.
  unfold from_blob.
  destruct (forallb _ shape); [|discriminate]. cbn [andb].
  destruct (Z.to_nat (numel_of shape) <=? length blob)%nat eqn:Hle;
    [|discriminate].
  intros [= <-]. repeat split. apply Nat.leb_le, Hle.
Qed.

Lemma from_blob_1d_inv (v : list float) (n : Z) (raw : list float) :
  from_blob_1d v n = Some raw ->
  raw = take (Z.to_nat n) v /\ length raw = Z.to_nat n.
Proof.
  unfold from_blob_1d.
  destruct (from_blob v [n]) as [t|] eqn:Hb; [|discriminate].
  intros [= <-]. destruct (from_blob_inv _ _ _ Hb) as (_ & Hv & Hle).
  assert (numel_of [n] = n) as Hn by (unfold numel_of; cbn; lia).
  rewrite Hn in *. split; [exact Hv|].
  rewrite Hv, length_take. lia.
Qed.

Lemma discount_and_add_inv (returns0 : list float) (gamma : Q)
    (reward_tensor returns1 : list float) :
  discount_and_add returns0 gamma reward_tensor = Some returns1 ->
  length returns0 = length reward_tensor /\
  length returns1 = length reward_tensor /\
  forall i r x,
    returns0 !! i = Some r -> reward_tensor !! i = Some x ->
    returns1 !! i = Some (fadd (fmul r (Fin gamma)) x).
Proof.
  unfold discount_and_add.
  destruct (decide (length returns0 = length reward_tensor)) as [Hlen|];
    [|discriminate].
  intros [= <-]. split; [exact Hlen|]. split.
  - rewrite length_zip_with. lia.
  - intros i r x Hr Hx. rewrite lookup_zip_with, Hr, Hx. reflexivity.
Qed.

Lemma from_blob_succeeds (blob : list float) (shape : list Z) :
  Forall (fun d => 0 <= d) shape ->
  (Z.to_nat (numel_of shape) <= length blob)%nat ->
  from_blob blob shape =
    Some (mkTensor shape (FloatData (take (Z.to_nat (numel_of shape)) blob))).
Proof.
  intros Hpos Hlen. unfold from_blob.
  assert (forallb (fun d => 0 <=? d) shape = true) as ->.
  { apply forallb_forall. intros d Hd. apply Z.leb_le.
    rewrite Forall_forall in Hpos. apply Hpos, list_elem_of_In, Hd. }
  assert ((Z.to_nat (numel_of shape) <=? length blob)%nat = true) as ->
    by (apply Nat.leb_le, Hlen).
  reflexivity.
Qed.

(** On inputs of the expected sizes an iteration of the tracking loop
    completes and keeps the sizes. *)
Lemma track_env_succeeds (real_rewards : list float)
    (dones_vec : list (list bool)) (c : Client) (i : nat) :
  consistent c ->
  (i < Z.to_nat num_envs)%nat ->
  (Z.to_nat num_envs <= length real_rewards)%nat ->
  is_Some (done_at dones_vec i) ->
  exists c', track_env real_rewards dones_vec c i = Some c' /\ consistent c'.
Proof.
  intros (Hrun & Hret & Hhist & Hcount) Hi Hlen [d0 Hd].
  destruct (lookup_lt_is_Some_2 real_rewards i) as [r Hr]; [lia|].
  destruct (lookup_lt_is_Some_2 (running_rewards c) i) as [running Hrg]; [lia|].
  unfold track_env, load. rewrite Hr, Hrg. cbn [mbind option_bind].
  rewrite (store_succeeds (running_rewards c)) by lia.
  cbn [mbind option_bind].
  rewrite Hd. cbn [mbind option_bind]. destruct d0.
  - cbv zeta. destruct (slot_in_window _ Hcount) as [Hs1 Hs2].
    assert ((0 <=? int_rem (episode_count c) reward_average_window_size)
            = true) as -> by (apply Z.leb_le, Hs1).
    rewrite (store_succeeds (reward_history c)) by lia.
    cbn [mbind option_bind].
    rewrite (store_succeeds (<[i := _]> (running_rewards c)))
      by (rewrite length_insert; lia).
    cbn [mbind option_bind].
    rewrite (store_succeeds (returns c)) by lia.
    cbn [mbind option_bind].
    eexists. split; [reflexivity|].
    unfold consistent. cbn. rewrite !length_insert. repeat split; lia.
  - eexists. split; [reflexivity|].
    unfold consistent. cbn. rewrite !length_insert. repeat split; lia.
Qed.

Lemma for_each_track_succeeds (real_rewards : list float)
    (dones_vec : list (list bool)) (n : nat) :
  (Z.to_nat num_envs <= length real_rewards)%nat ->
  (forall i, (i < Z.to_nat num_envs)%nat -> is_Some (done_at dones_vec i)) ->
  forall (first : nat) (c : Client),
    (first + n <= Z.to_nat num_envs)%nat ->
    consistent c ->
    exists c',
      for_each (track_env real_rewards dones_vec) first n c = Some c' /\
      consistent c'.
Proof.
  intros Hlen Hdone. induction n as [|n IH]; intros first c Hn Hc.
  - exists c. split; [reflexivity | exact Hc].
  - destruct (track_env_succeeds real_rewards dones_vec c first Hc)
      as (c1 & Hstep & Hc1); [lia | exact Hlen | apply Hdone; lia |].
    destruct (IH (S first) c1) as (c' & Hloop & Hc'); [lia | exact Hc1 |].
    exists c'. split; [|exact Hc'].
    cbn [for_each]. rewrite Hstep. exact Hloop.
Qed.

Lemma mask_tensor_succeeds (dones_vec : list (list bool)) :
  (forall i, (i < Z.to_nat num_envs)%nat -> is_Some (done_at dones_vec i)) ->
  is_Some (mask_tensor dones_vec).
Proof.
  intros Hdone. unfold mask_tensor.
  destruct (mapM_is_Some_2 (dones_row dones_vec) (seq 0 (Z.to_nat num_envs)))
    as [dones ->]; [|cbn; eauto].
  apply Forall_forall. intros i Hi. apply list_elem_of_In, in_seq in Hi.
  destruct (Hdone i) as [d0 Hd]; [lia|].
  unfold compose, dones_row. rewrite Hd. cbn. eauto.
Qed.

(** A collection step on inputs of the expected sizes completes, and keeps
    the sizes for the next step. *)
Lemma collect_succeeds (observation_space_shape : list Z)
    (act_result : list Tensor) (step_result : StepResponse) (c : Client) :
  consistent c ->
  fits observation_space_shape act_result step_result ->
  exists c',
    collect observation_space_shape act_result step_result c = Some c' /\
    consistent c'.
Proof.
  intros Hc (Hshape & Hobs & Hrew & Hdone & Hact).
  assert (0 <= num_envs) as Hn by (unfold num_envs; lia).
  unfold collect, load. cbv zeta.
  rewrite from_blob_succeeds by (try constructor; assumption).
  cbn [mbind option_bind].
  unfold from_blob_1d.
  rewrite from_blob_succeeds
    by (try (repeat constructor; assumption);
        replace (numel_of [num_envs]) with num_envs by reflexivity;
        assumption).
  cbn [fmap option_fmap option_map mbind option_bind values elements].
  replace (numel_of [num_envs]) with num_envs by reflexivity.
  set (raw := take (Z.to_nat num_envs)
                (flatten_vector (real_reward step_result))).
  assert (length raw = Z.to_nat num_envs) as Hraw
    by (unfold raw; rewrite length_take; lia).
  destruct Hc as (Hrun & Hret & Hhist & Hcount).
  unfold discount_and_add.
  destruct (decide (length (returns c) = length raw)) as [_|]; [|congruence].
  cbn [mbind option_bind].
  set (R := zip_with _ (returns c) raw).
  assert (length R = Z.to_nat num_envs) as HR
    by (unfold R; rewrite length_zip_with; lia).
  destruct (for_each_track_succeeds
              (flatten_vector (real_reward step_result)) (done step_result)
              (Z.to_nat num_envs) Hrew Hdone 0
              (mkClient (running_rewards c) (episode_count c) (render c)
                 (reward_history c) (rms_update (returns_rms c) R) R
                 (storage c)))
    as (c1 & Htrack & Hc1); [lia | repeat split; assumption |].
  unfold track. rewrite Htrack. cbn [mbind option_bind].
  destruct (mask_tensor_succeeds _ Hdone) as [mask ->].
  cbn [mbind option_bind].
  destruct (lookup_lt_is_Some_2 act_result 3) as [? ->]; [lia|].
  destruct (lookup_lt_is_Some_2 act_result 1) as [? ->]; [lia|].
  destruct (lookup_lt_is_Some_2 act_result 2) as [? ->]; [lia|].
  destruct (lookup_lt_is_Some_2 act_result 0) as [? ->]; [lia|].
  cbn [mbind option_bind].
  rewrite from_blob_succeeds.
  - cbn [mbind option_bind]. eexists. split; [reflexivity | exact Hc1].
  - repeat constructor; lia.
  - unfold normalize. rewrite length_fmap, Hraw.
    replace (numel_of [num_envs; 1]) with num_envs by reflexivity. lia.
Qed.

(** What a collection step that completes does with the rewards: the
    discounted returns, the batch given to the running moments, the reward
    given to the storage and the returns after the done flags. *)
Lemma collect_normalizes (observation_space_shape : list Z)
    (act_result : list Tensor) (step_result : StepResponse) (c c' : Client) :
  collect observation_space_shape act_result step_result c = Some c' ->
  exists raw R obs hidden_state action action_log_prob value reward mask,
    from_blob_1d (flatten_vector (real_reward step_result)) num_envs
      = Some raw /\
    length raw = Z.to_nat num_envs /\
    length R = Z.to_nat num_envs /\
    (forall i r x,
       returns c !! i = Some r -> raw !! i = Some x ->
       R !! i = Some (fadd (fmul r (Fin discount_factor)) x)) /\
    returns_rms c' = rms_update (returns_rms c) R /\
    storage c' =
      storage_insert (storage c) obs hidden_state action action_log_prob
        value reward mask /\
    sizes reward = [num_envs; 1] /\
    (forall i x,
       raw !! i = Some x ->
       values reward !! i =
         Some (clamp
                 (fdiv x
                    (fsqrt (fadd (rms_get_variance (returns_rms c'))
                              (Fin epsilon))))
                 (- reward_clip_value) reward_clip_value)) /\
    (forall i : nat,
       (i < Z.to_nat num_envs)%nat ->
       returns c' !! i =
         match done_at (done step_result) i with
         | Some true => Some zero
         | _ => R !! i
         end).
Proof.
  intros Hc.
  destruct (collect_inv _ _ _ _ _ Hc)
    as (obs & raw & R & c1 & mask & hidden_state & action & action_log_prob &
        value & reward & _ & Hraw & HR & Ht & _ & _ & _ & _ & _ & Hrew & ->).
  destruct (from_blob_1d_inv _ _ _ Hraw) as [_ Hlen].
  destruct (discount_and_add_inv _ _ _ _ HR) as (_ & HlenR & HRi).
  destruct (for_each_track_returns _ _ _ _ _ _ Ht)
    as (Hrms & Hst & _ & Hret).
  cbn [returns_rms storage returns] in *.
  destruct (from_blob_inv _ _ _ Hrew) as (Hsizes & Hvals & _).
  exists raw, R, obs, hidden_state, action, action_log_prob, value, reward,
    mask.
  repeat split; try assumption; try congruence.
  - intros i x Hx. rewrite Hvals, Hrms.
    assert (i < Z.to_nat num_envs)%nat as Hi
      by (rewrite <- Hlen; apply lookup_lt_is_Some; eauto).
    replace (Z.to_nat (numel_of [num_envs; 1])) with (Z.to_nat num_envs)
      by reflexivity.
    rewrite lookup_take_lt by exact Hi.
    unfold normalize. rewrite list_lookup_fmap, Hx. reflexivity.
  - intros i Hi. rewrite Hret.
    destruct (decide (0 <= i < 0 + Z.to_nat num_envs)%nat); [reflexivity | lia].
Qed.

End Bookkeeping.

(** With the [insert] of [storage.cpp], a collection step leaves the
    storage as it is, whatever the square root and the running moments. *)
Lemma collect_keeps_storage_cpp (sqrtQ : Q -> Q) (RMS : Type)
    (update : RMS -> list float -> RMS) (variance : RMS -> float)
    (observation_space_shape : list Z) (act_result : list Tensor)
    (step_result : StepResponse)
    (c c' : @Client (ClientOnStorage.on_storage_cpp sqrtQ RMS update variance)) :
  collect observation_space_shape act_result step_result c = Some c' ->
  storage c' = storage c.
Proof.
  intros Hc.
  destruct (collect_inv _ _ _ _ _ Hc)
    as (? & ? & ? & c1 & ? & ? & ? & ? & ? & ? & _ & _ & _ & Ht & _ & _ & _ &
        _ & _ & _ & ->).
  destruct (for_each_track_returns _ _ _ _ _ _ Ht) as (_ & Hst & _).
  exact Hst.
Qed.

End ClientFacts.

Module ClientClaims.

Import GymClient ClientInputs ClientFacts.

Section Orchestrator.

Context `{Collaborators}.

(** C7 on the code.  As long as no done flag has been set since the start,
    no episode is counted, and a reporting block that runs then (an update
    that is a positive multiple of [log_interval]) divides the sum 0 by the
    count 0: the average it logs is a NaN, and [render] is set to false. *)
Theorem average_before_first_episode (observation_space_shape : list Z)
    (steps : list (list Tensor * StepResponse)) (rms : RunningMeanStd)
    (st : RolloutStorage) (c : Client) (update : Z) :
  rollout observation_space_shape steps (start rms st) = Some c ->
  forallb (fun p => no_episode_ends p.2) steps = true ->
  int_rem update log_interval = 0 -> 0 < update ->
  episode_count c = 0 /\
  average_reward c = Some NaN /\
  exists c', report update c = Some (c', Some NaN) /\ render c' = false.
Proof.
  intros Hroll Hquiet Hrem Hpos.
  destruct (rollout_quiet _ _ Hquiet _ _ Hroll) as [Hh Hcount].
  cbn [start reward_history episode_count] in Hh, Hcount.
  assert (average_reward c = Some NaN) as Havg
    by (unfold average_reward; rewrite Hh, Hcount; reflexivity).
  repeat split; try assumption.
  unfold report. rewrite Hrem, Havg.
  assert ((0 <? update) = true) as -> by (apply Z.ltb_lt, Hpos).
  cbn. eexists. split; reflexivity.
Qed.

End Orchestrator.

(** C8 on the code.  After eleven updates in each step of which each of
    the 8 environments ends an episode of total 1/2, 3520 episodes are
    counted and the window of 10 holds ten totals of 1/2, whose mean is 1/2;
    the average that the reporting block of update 10 logs is 0, every
    partial sum being converted to [int]. *)
Theorem average_of_half_episodes :
  exists c c' avg,
    rollout [2] busy_steps started = Some c /\
    episode_count c = reward_average_window_size + 3510 /\
    reward_history c = replicate 10 (Fin (1 # 2)) /\
    accumulate_int (reward_history c) 0 = Some 0 /\
    report 10 c = Some (c', Some avg) /\
    same avg zero = true /\
    same (mean (reward_history c)) (Fin (1 # 2)) = true /\
    same avg (mean (reward_history c)) = false.
Proof.
  eexists. eexists. eexists. split; [vm_compute; reflexivity|].
  repeat split.
Qed.

End ClientClaims.

(** ** More on the rollout storage *)

Module StorageMoreFacts.

Import Storage TorchFacts StorageFacts.

Lemma forallb_nonneg (shape : list Z) :
  forallb (fun d => 0 <=? d) shape = true <-> Forall (fun d => 0 <= d) shape.
Proof.
  rewrite forallb_forall, Forall_forall. split; intros Hall d Hd.
  - apply Z.leb_le, Hall, list_elem_of_In, Hd.
  - apply Z.leb_le, Hall, list_elem_of_In, Hd.
Qed.

Lemma full_nonneg (shape : list Z) (v : float) (t : Tensor) :
  full shape v = Some t -> Forall (fun d => 0 <= d) shape.
Proof.
  unfold full. intros Ht. apply forallb_nonneg.
  destruct (forallb _ shape); [reflexivity | discriminate].
Qed.

Lemma numel_of_nonneg (shape : list Z) :
  Forall (fun d => 0 <= d) shape -> 0 <= numel_of shape.
Proof.
  unfold numel_of. induction 1 as [|d shape Hd _ IH]; cbn; [lia | nia].
Qed.

(** An offset that is found lies in the block of its prefix. *)
Lemma offset_bound (shape : list Z) :
  forall (idx : list Z) (acc o : Z),
    Forall (fun d => 0 <= d) shape -> 0 <= acc ->
    offset shape idx acc = Some o ->
    acc * numel_of shape <= o < (acc + 1) * numel_of shape.
Proof.
  induction shape as [|d shape IH]; intros idx acc o Hpos Hacc Hoff.
  - destruct idx; [|discriminate]. cbn in Hoff. injection Hoff as <-.
    unfold numel_of. cbn. lia.
  - destruct idx as [|i idx].
    + cbn [offset] in Hoff.
      destruct (numel_of (d :: shape) =? 1) eqn:Hone; [|discriminate].
      injection Hoff as <-. apply Z.eqb_eq in Hone. lia.
    + cbn [offset] in Hoff. cbv zeta in Hoff.
      set (i' := if i <? 0 then i + d else i) in *.
      destruct ((0 <=? i') && (i' <? d)) eqn:Hin; [|discriminate].
      apply andb_prop in Hin as [Hlo Hhi].
      apply Z.leb_le in Hlo. apply Z.ltb_lt in Hhi.
      apply Forall_cons in Hpos as [Hd Hpos].
      specialize (IH idx (acc * d + i') o Hpos ltac:(nia) Hoff).
      pose proof (numel_of_nonneg shape Hpos) as Hn.
      change (numel_of (d :: shape)) with (d * numel_of shape). nia.
Qed.

(** A full index within the sizes has an offset. *)
Lemma offset_in_range (shape idx : list Z) :
  Forall2 (fun i d => 0 <= i < d) idx shape ->
  forall acc, is_Some (offset shape idx acc).
Proof.
  induction 1 as [|i d idx shape Hi _ IH]; intros acc.
  - cbn. eauto.
  - cbn [offset]. cbv zeta.
    assert ((i <? 0) = false) as -> by (apply Z.ltb_ge; lia).
    assert ((0 <=? i) && (i <? d) = true) as ->.
    { apply andb_true_intro. split; [apply Z.leb_le | apply Z.ltb_lt]; lia. }
    apply IH.
Qed.

(** Reading a tensor that is filled with [v]: a read that succeeds gives
    [v], and a read at a full index within the sizes succeeds. *)
Lemma item_filled_with (t : Tensor) (v : float) (idx : list Z) (x : float) :
  filled_with t v -> item t idx = Some x -> x = v.
Proof.
  unfold filled_with, item. intros Hfill Hitem.
  destruct (offset (sizes t) idx 0) as [o|]; [|discriminate].
  cbn in Hitem. rewrite Hfill in Hitem.
  apply lookup_replicate in Hitem as [-> _]. reflexivity.
Qed.

Lemma item_in_range (t : Tensor) (v : float) (idx : list Z) :
  filled_with t v ->
  Forall (fun d => 0 <= d) (sizes t) ->
  Forall2 (fun i d => 0 <= i < d) idx (sizes t) ->
  item t idx = Some v.
Proof.
  unfold filled_with, item, numel. intros Hfill Hpos Hidx.
  destruct (offset_in_range _ _ Hidx 0) as [o Ho]. rewrite Ho. cbn.
  destruct (offset_bound (sizes t) idx 0 o Hpos ltac:(lia) Ho)
    as [Hlo Hhi].
  rewrite Hfill. apply lookup_replicate_2. lia.
Qed.

(** A first index at or beyond the first extent is refused. *)
Lemma item_beyond (t : Tensor) (d i : Z) (shape idx : list Z) :
  sizes t = d :: shape -> 0 <= d <= i -> item t (i :: idx) = None.
Proof.
  intros Hs Hi. unfold item. rewrite Hs. cbn [offset]. cbv zeta.
  assert ((i <? 0) = false) as -> by (apply Z.ltb_ge; lia).
  assert ((i <? d) = false) as -> by (apply Z.ltb_ge; lia).
  rewrite andb_false_r. reflexivity.
Qed.

(** The sizes of the eight arrays. *)
Lemma new_sizes (T N : Z) (obs_shape : list Z) (a : ActionSpace) (H : Z)
    (s : RolloutStorage) :
  new T N obs_shape a H = Some s ->
  sizes (observations s) = uint_add T 1 :: N :: obs_shape /\
  sizes (hidden_states s) = [uint_add T 1; N; H] /\
  sizes (rewards s) = [T; N; 1] /\
  sizes (value_predictions s) = [uint_add T 1; N; 1] /\
  sizes (returns s) = [uint_add T 1; N; 1] /\
  sizes (action_log_probs s) = [T; N; 1] /\
  sizes (masks s) = [uint_add T 1; N; 1] /\
  exists num_actions,
    (if String.eqb (type a) "Discrete" then Some 1
     else long_to_int <$> shape a !! 0%nat) = Some num_actions /\
    sizes (actions s) = [T; N; num_actions].
Proof.
  intros Hnew.
  destruct (new_inv _ _ _ _ _ _ Hnew)
    as (Ho & Hh & Hr & Hv & Hret & Hl & (na & t & Hna & Ht & Hact) & Hm & _).
  unfold zeros, ones in *.
  rewrite (proj1 (full_inv _ _ _ Ho)), (proj1 (full_inv _ _ _ Hh)),
    (proj1 (full_inv _ _ _ Hr)), (proj1 (full_inv _ _ _ Hv)),
    (proj1 (full_inv _ _ _ Hret)), (proj1 (full_inv _ _ _ Hl)),
    (proj1 (full_inv _ _ _ Hm)).
  repeat split. exists na. split; [exact Hna|].
  destruct (String.eqb (type a) "Discrete").
  - rewrite (to_long_zeros _ _ Ht) in Hact. injection Hact as <-. reflexivity.
  - injection Hact as <-. exact (proj1 (full_inv _ _ _ Ht)).
Qed.

(** All sizes of a constructed storage are non-negative. *)
Lemma new_sizes_nonneg (T N : Z) (obs_shape : list Z) (a : ActionSpace)
    (H : Z) (s : RolloutStorage) :
  new T N obs_shape a H = Some s ->
  Forall (fun t => Forall (fun d => 0 <= d) (sizes t))
    [observations s; hidden_states s; rewards s; value_predictions s;
     returns s; action_log_probs s; actions s; masks s].
Proof.
  intros Hnew.
  destruct (new_inv _ _ _ _ _ _ Hnew)
    as (Ho & Hh & Hr & Hv & Hret & Hl & (na & t & Hna & Ht & Hact) & Hm & _).
  unfold zeros, ones in *.
  assert (forall sh v x, full sh v = Some x ->
            Forall (fun d => 0 <= d) (sizes x)) as Hfull.
  { intros sh v x Hx. rewrite (proj1 (full_inv _ _ _ Hx)).
    exact (full_nonneg _ _ _ Hx). }
  repeat constructor; eauto.
  destruct (String.eqb (type a) "Discrete").
  - rewrite (to_long_zeros _ _ Ht) in Hact. injection Hact as <-.
    cbn [sizes]. exact (full_nonneg _ _ _ Ht).
  - injection Hact as <-. eauto.
Qed.

End StorageMoreFacts.

Module StorageExtras.

Import Storage StorageTest TorchFacts StorageFacts StorageMoreFacts.

(** X1.  A constructed storage has [observations] of shape
    [[T+1, N] ++ obs_shape], [hidden_states] of shape [[T+1, N, H]] and
    [actions] of shape [[T, N, A]], where [A] is 1 for a ["Discrete"] space
    and [shape[0]] converted to [int] otherwise ([shape[0]] itself when it
    is below [2^31]); [T+1] is computed on [unsigned int].  Each of the eight
    arrays holds as many elements as the product of its sizes. *)
Theorem storage_array_shapes
    (T N : Z) (obs_shape : list Z) (a : ActionSpace) (H : Z)
    (s : RolloutStorage) :
  new T N obs_shape a H = Some s ->
  sizes (get_observations s) = uint_add T 1 :: N :: obs_shape /\
  sizes (get_hidden_states s) = [uint_add T 1; N; H] /\
  sizes (get_actions s) =
    [T; N; if String.eqb (type a) "Discrete" then 1
           else long_to_int (default 0 (shape a !! 0%nat))] /\
  (forall d, String.eqb (type a) "Discrete" = false ->
     shape a !! 0%nat = Some d -> 0 <= d < 2 ^ 31 ->
     sizes (get_actions s) = [T; N; d]) /\
  Forall (fun t => length (values t) = Z.to_nat (numel t))
    [get_observations s; get_hidden_states s; get_rewards s;
     get_value_predictions s; get_returns s; get_action_log_probs s;
     get_actions s; get_masks s].
Proof.
  intros Hnew.
  destruct (new_sizes _ _ _ _ _ _ Hnew)
    as (Ho & Hh & _ & _ & _ & _ & _ & na & Hna & Hact).
  destruct (new_freshly_filled _ _ _ _ _ _ Hnew)
    as (Fm & Fo & Fh & Fr & Fv & Fret & Fl & Fa).
  assert (sizes (actions s) =
            [T; N; if String.eqb (type a) "Discrete" then 1
                   else long_to_int (default 0 (shape a !! 0%nat))]) as Hact'.
  { rewrite Hact. destruct (String.eqb (type a) "Discrete").
    - injection Hna as <-. reflexivity.
    - destruct (shape a !! 0%nat) as [d|]; [|discriminate].
      injection Hna as <-. reflexivity. }
  unfold get_observations, get_hidden_states, get_actions, get_rewards,
    get_value_predictions, get_returns, get_action_log_probs, get_masks.
  split; [exact Ho|]. split; [exact Hh|]. split; [exact Hact'|]. split.
  - intros d Hbox Hd Hrange. rewrite Hact', Hbox, Hd.
    change (default 0 (Some d)) with d.
    assert (long_to_int d = d) as ->; [|reflexivity].
    unfold long_to_int, UINT_MODULUS.
    rewrite Z.mod_small; [lia|].
    change (2 ^ 31) with 2147483648 in *.
    change (2 ^ 32) with 4294967296. lia.
  - unfold filled_with in *.
    repeat constructor;
      match goal with
      | Hf : values ?t = replicate _ _ |- length (values ?t) = _ =>
          rewrite Hf; apply length_replicate
      end.
Qed.

Lemma storage_array_shapes_witness :
  exists s,
    new 3 5 [5; 2] Box3 10 = Some s /\
    sizes (get_observations s) = uint_add 3 1 :: 5 :: [5; 2] /\
    sizes (get_hidden_states s) = [uint_add 3 1; 5; 10] /\
    sizes (get_actions s) =
      [3; 5; if String.eqb (type Box3) "Discrete" then 1
             else long_to_int (default 0 (shape Box3 !! 0%nat))] /\
    (forall d, String.eqb (type Box3) "Discrete" = false ->
       shape Box3 !! 0%nat = Some d -> 0 <= d < 2 ^ 31 ->
       sizes (get_actions s) = [3; 5; d]) /\
    Forall (fun t => length (values t) = Z.to_nat (numel t))
      [get_observations s; get_hidden_states s; get_rewards s;
       get_value_predictions s; get_returns s; get_action_log_probs s;
       get_actions s; get_masks s].
Proof.
  eexists. split; [vm_compute; reflexivity|].
  apply (storage_array_shapes 3 5 [5; 2] Box3 10).
  vm_compute. reflexivity.
Defined.

(** X2.  The constructor returns a storage only when the observation
    shape has no negative entry and the action space is ["Discrete"]
    (whatever its shape, an empty one included) or has a first dimension
    that is not negative as an [int]: a negative dimension is refused by
    [torch::zeros], and [shape[0]] of an empty shape is not defined. *)
Theorem construction_requires
    (T N : Z) (obs_shape : list Z) (a : ActionSpace) (H : Z)
    (s : RolloutStorage) :
  new T N obs_shape a H = Some s ->
  Forall (fun d => 0 <= d) obs_shape /\
  (type a = "Discrete"%string \/
   exists d, shape a !! 0%nat = Some d /\ 0 <= long_to_int d).
Proof.
  intros Hnew.
  destruct (new_inv _ _ _ _ _ _ Hnew)
    as (Ho & _ & _ & _ & _ & _ & (na & t & Hna & Ht & _) & _).
  unfold zeros in *. split.
  - pose proof (full_nonneg _ _ _ Ho) as Hall.
    apply Forall_app in Hall as [_ Hall]. exact Hall.
  - pose proof (full_nonneg _ _ _ Ht) as Hall.
    destruct (String.eqb (type a) "Discrete") eqn:Heq.
    + left. apply String.eqb_eq, Heq.
    + right. unfold load in Hna.
      destruct (shape a !! 0%nat) as [d|]; [|discriminate].
      injection Hna as <-. exists d. split; [reflexivity|].
      inversion Hall as [|? ? _ Hall']. inversion Hall' as [|? ? _ Hall''].
      inversion Hall''. assumption.
Qed.

Lemma construction_requires_witness :
  (exists s,
     new 3 5 [5; 2] (mkActionSpace "Discrete" []) 10 = Some s /\
     Forall (fun d => 0 <= d) [5; 2] /\
     (type (mkActionSpace "Discrete" []) = "Discrete"%string \/
      exists d, shape (mkActionSpace "Discrete" []) !! 0%nat = Some d /\
                0 <= long_to_int d)) /\
  new 3 5 [5; -2] Discrete3 10 = None /\
  new 3 5 [5; 2] (mkActionSpace "Box" []) 10 = None /\
  new 3 5 [5; 2] (mkActionSpace "Box" [-1]) 10 = None.
Proof.
  split; [|repeat split].
  eexists. split; [vm_compute; reflexivity|].
  eapply (construction_requires 3 5 [5; 2] (mkActionSpace "Discrete" []) 10).
  vm_compute. reflexivity.
Defined.

(** X3.  With [num_steps = 2^32 - 1] the sum [num_steps + 1] wraps to 0:
    the arrays indexed from 0 to T have a first extent of 0 and no element,
    so that no read of them succeeds, while [rewards] still has
    [2^32 - 1] rows. *)
Theorem largest_horizon_wraps
    (N : Z) (obs_shape : list Z) (a : ActionSpace) (H : Z)
    (s : RolloutStorage) :
  new (UINT_MODULUS - 1) N obs_shape a H = Some s ->
  sizes (get_masks s) = [0; N; 1] /\
  sizes (get_observations s) = 0 :: N :: obs_shape /\
  sizes (get_rewards s) = [UINT_MODULUS - 1; N; 1] /\
  Forall (fun t => values t = [] /\ forall idx, item t idx = None)
    [get_observations s; get_hidden_states s; get_value_predictions s;
     get_returns s; get_masks s].
Proof.
  intros Hnew.
  destruct (new_sizes _ _ _ _ _ _ Hnew)
    as (Ho & Hh & Hr & Hv & Hret & _ & Hm & _).
  destruct (new_freshly_filled _ _ _ _ _ _ Hnew)
    as (Fm & Fo & Fh & _ & Fv & Fret & _).
  assert (uint_add (UINT_MODULUS - 1) 1 = 0) as Hwrap by reflexivity.
  rewrite Hwrap in *.
  unfold get_observations, get_hidden_states, get_rewards,
    get_value_predictions, get_returns, get_masks.
  assert (forall t v sh, filled_with t v -> sizes t = 0 :: sh ->
            values t = [] /\ forall idx, item t idx = None) as Hempty.
  { intros t v sh Hf Hs. unfold filled_with, numel in Hf.
    rewrite Hs in Hf. change (numel_of (0 :: sh)) with (0 * numel_of sh) in Hf.
    rewrite Z.mul_0_l in Hf. cbn in Hf. split; [exact Hf|].
    intros idx. unfold item. rewrite Hf.
    destruct (offset (sizes t) idx 0); reflexivity. }
  split; [exact Hm|]. split; [exact Ho|]. split; [exact Hr|].
  repeat constructor; eapply Hempty; eassumption.
Qed.

Lemma largest_horizon_wraps_witness :
  exists s,
    new (UINT_MODULUS - 1) 0 [4] Discrete3 5 = Some s /\
    sizes (get_masks s) = [0; 0; 1] /\
    sizes (get_observations s) = 0 :: 0 :: [4] /\
    sizes (get_rewards s) = [UINT_MODULUS - 1; 0; 1] /\
    Forall (fun t => values t = [] /\ forall idx, item t idx = None)
      [get_observations s; get_hidden_states s; get_value_predictions s;
       get_returns s; get_masks s].
Proof.
  eexists. split; [vm_compute; reflexivity|].
  apply (largest_horizon_wraps 0 [4] Discrete3 5).
  vm_compute. reflexivity.
Defined.

(** X4.  On a constructed storage every read at a full index within the
    sizes gives 1 in [masks] and 0 in each of the other seven arrays, and a
    read whose first index is at or beyond the first extent (slot [T+1] of
    [masks], slot [T] of [rewards]) is refused, in all eight. *)
Theorem fresh_storage_reads
    (T N : Z) (obs_shape : list Z) (a : ActionSpace) (H : Z)
    (s : RolloutStorage) :
  new T N obs_shape a H = Some s ->
  (forall idx,
     Forall2 (fun i d => 0 <= i < d) idx (sizes (get_masks s)) ->
     item (get_masks s) idx = Some one) /\
  Forall (fun t => forall idx,
            Forall2 (fun i d => 0 <= i < d) idx (sizes t) ->
            item t idx = Some zero)
    [get_observations s; get_hidden_states s; get_rewards s;
     get_value_predictions s; get_returns s; get_action_log_probs s;
     get_actions s] /\
  Forall (fun t => forall i idx,
            default 0 (head (sizes t)) <= i -> item t (i :: idx) = None)
    [get_observations s; get_hidden_states s; get_rewards s;
     get_value_predictions s; get_returns s; get_action_log_probs s;
     get_actions s; get_masks s].
Proof.
  intros Hnew.
  destruct (new_freshly_filled _ _ _ _ _ _ Hnew)
    as (Fm & Fo & Fh & Fr & Fv & Fret & Fl & Fa).
  pose proof (new_sizes_nonneg _ _ _ _ _ _ Hnew) as Hpos.
  repeat match type of Hpos with
         | Forall _ (_ :: _) =>
             let Hp := fresh "Hp" in apply Forall_cons in Hpos as [Hp Hpos]
         end.
  unfold get_observations, get_hidden_states, get_rewards,
    get_value_predictions, get_returns, get_action_log_probs, get_actions,
    get_masks.
  assert (forall t, Forall (fun d => 0 <= d) (sizes t) ->
            forall i idx, default 0 (head (sizes t)) <= i ->
                          item t (i :: idx) = None) as Hbeyond.
  { intros t Ht i idx Hi. destruct (sizes t) as [|d sh] eqn:Hs.
    - unfold item. rewrite Hs. reflexivity.
    - apply Forall_cons in Ht as [Hd _]. cbn in Hi.
      apply (item_beyond t d i sh idx Hs). lia. }
  split; [|split].
  - intros idx Hidx. apply item_in_range; assumption.
  - repeat constructor; intros idx Hidx; apply item_in_range; assumption.
  - repeat constructor; apply Hbeyond; assumption.
Qed.

Lemma fresh_storage_reads_witness :
  exists s,
    new 3 2 [4] Discrete3 5 = Some s /\
    item (get_masks s) [3; 1; 0] = Some one /\
    item (get_rewards s) [2; 1; 0] = Some zero /\
    item (get_observations s) [3; 1; 3] = Some zero /\
    item (get_masks s) [4; 1; 0] = None /\
    item (get_rewards s) [3; 1; 0] = None.
Proof.
  eexists. split; [vm_compute; reflexivity|].
  destruct (fresh_storage_reads 3 2 [4] Discrete3 5 _ eq_refl)
    as (Hm & Hz & Hb).
  split; [apply Hm; repeat constructor; lia|].
  split; [|split; [|split]].
  - apply (Forall_inv (Forall_inv_tail (Forall_inv_tail Hz))).
    repeat constructor; lia.
  - apply (Forall_inv Hz). repeat constructor; lia.
  - apply (Forall_inv (Forall_inv_tail (Forall_inv_tail (Forall_inv_tail
             (Forall_inv_tail (Forall_inv_tail (Forall_inv_tail
             (Forall_inv_tail Hb)))))))).
    vm_compute. discriminate.
  - apply (Forall_inv (Forall_inv_tail (Forall_inv_tail Hb))).
    vm_compute. discriminate.
Defined.

End StorageExtras.

(** ** More on the training loop *)

Module LoopFacts.

Import GymClient GymClientLoop ClientFacts.

(** A vector of vectors of floats flattens to their concatenation. *)
Lemma flatten_rows (rows : list (list float)) :
  flatten_vector (Vectors (Scalars <$> rows)) = concat rows.
Proof.
  cbn [flatten_vector]. f_equal.
  induction rows as [|r rows IH]; [reflexivity|].
  cbn. f_equal. exact IH.
Qed.

Lemma flatten_app (l1 l2 : list Nested) :
  flatten_vector (Vectors (l1 ++ l2)) =
  flatten_vector (Vectors l1) ++ flatten_vector (Vectors l2).
Proof. cbn [flatten_vector]. rewrite map_app, concat_app. reflexivity. Qed.

(** What [mapM] over a range of indices returns. *)
Lemma mapM_seq_inv {B} (f : nat -> option B) (start n : nat) (rows : list B) :
  mapM f (seq start n) = Some rows ->
  length rows = n /\
  forall i, (i < n)%nat ->
    exists y, rows !! i = Some y /\ f (start + i)%nat = Some y.
Proof.
  intros Hm. apply mapM_Some in Hm. split.
  - rewrite <- (Forall2_length _ _ _ Hm). apply length_seq.
  - intros i Hi.
    destruct (Forall2_lookup_l _ _ _ i (start + i)%nat Hm) as (y & Hy & Hf).
    + apply lookup_seq. split; [reflexivity | exact Hi].
    + exists y. split; assumption.
Qed.

(** Reading [n] consecutive elements from [off] gives that slice. *)
Lemma mapM_slice (l : list float) (off n : nat) (r : list float) :
  mapM (fun j => load l (off + j)) (seq 0 n) = Some r ->
  r = take n (drop off l) /\ length r = n.
Proof.
  intros Hm. destruct (mapM_seq_inv _ _ _ _ Hm) as [Hlen Hat].
  split; [|exact Hlen].
  apply list_eq. intros j.
  destruct (decide (j < n)%nat) as [Hj|Hj].
  - destruct (Hat j Hj) as (y & Hy & Hl). unfold load in Hl. cbn in Hl.
    rewrite Hy, lookup_take_lt, lookup_drop by exact Hj. symmetry. exact Hl.
  - rewrite (lookup_ge_None_2 r) by lia.
    symmetry. apply lookup_ge_None_2. rewrite length_take. lia.
Qed.

(** Consecutive slices of one length concatenate to a prefix. *)
Lemma concat_slices (l : list float) (n m : nat) :
  forall (start : nat) (rows : list (list float)),
    length rows = m ->
    (forall i, (i < m)%nat ->
       rows !! i = Some (take n (drop ((start + i) * n) l))) ->
    concat rows = take (m * n) (drop (start * n) l).
Proof.
  induction m as [|m IH]; intros start rows Hlen Hat.
  - destruct rows; [reflexivity | discriminate].
  - destruct rows as [|r rows]; [discriminate|].
    cbn [concat]. injection Hlen as Hlen.
    pose proof (Hat 0%nat ltac:(lia)) as H0.
    change ((r :: rows) !! 0%nat) with (Some r) in H0.
    injection H0 as Hr. rewrite Nat.add_0_r in Hr.
    rewrite (IH (S start) rows Hlen).
    + rewrite Hr.
      replace (S start * n)%nat with (start * n + n)%nat by lia.
      rewrite <- drop_drop, take_take_drop. reflexivity.
    + intros i Hi. specialize (Hat (S i) ltac:(lia)).
      change ((r :: rows) !! S i) with (rows !! i) in Hat.
      rewrite Hat. do 3 f_equal. lia.
Qed.

Lemma to_kFloat_values (t t' : Tensor) :
  to t kFloat = Some t' -> values t' = values t /\ sizes t' = sizes t.
Proof.
  unfold to, values. destruct (elements t) eqn:He.
  - intros [= <-]. rewrite He. split; reflexivity.
  - intros [= <-]. split; reflexivity.
Qed.

End LoopFacts.

Module LoopExtras.

Import GymClient GymClientLoop ClientInputs ClientFacts LoopFacts.

(** X5.  [flatten_vector] keeps every value, in order: a vector of vectors
    of floats flattens to their concatenation, flattening distributes over
    the concatenation of two vectors of nested vectors, and the number of
    values is the sum over the elements. *)
Theorem flatten_vector_keeps_order :
  (forall rows : list (list float),
     flatten_vector (Vectors (Scalars <$> rows)) = concat rows) /\
  (forall l1 l2 : list Nested,
     flatten_vector (Vectors (l1 ++ l2)) =
     flatten_vector (Vectors l1) ++ flatten_vector (Vectors l2)) /\
  (forall l : list Nested,
     length (flatten_vector (Vectors l)) =
     sum_list (length <$> (flatten_vector <$> l))).
Proof.
  split; [exact flatten_rows|]. split; [exact flatten_app|].
  induction l as [|x l IH]; [reflexivity|].
  change (Vectors (x :: l)) with (Vectors ([x] ++ l)).
  rewrite flatten_app, length_app, IH. cbn. rewrite app_nil_r. reflexivity.
Qed.

(** X6.  The conversion of the policy's actions gives one vector per
    environment.  For a ["Discrete"] space the vector of environment [i] is
    the single value [i] of the tensor; otherwise every vector has
    [shape[0]] values and, put end to end, the vectors are the first
    [num_envs * shape[0]] values of the tensor, in order. *)
Theorem convert_actions_rows (space : ActionSpace) (action : Tensor)
    (rows : list (list float)) :
  convert_actions space action = Some rows ->
  length rows = Z.to_nat num_envs /\
  (String.eqb (type space) "Discrete" = true ->
   rows = (fun a => [a]) <$> take (Z.to_nat num_envs) (values action)) /\
  (String.eqb (type space) "Discrete" = false ->
   exists n,
     shape space !! 0%nat = Some n /\
     Forall (fun r => length r = Z.to_nat n) rows /\
     flatten_vector (Vectors (Scalars <$> rows)) =
       take (Z.to_nat num_envs * Z.to_nat n) (values action)).
Proof.
  unfold convert_actions. intros Hc. bind_inv Hc. cbv zeta in Hc.
  destruct (to_kFloat_values _ _ E) as [Hv _]. rewrite Hv in Hc.
  destruct (mapM_seq_inv _ _ _ _ Hc) as [Hlen Hat].
  split; [exact Hlen|]. split.
  - intros Hd. apply list_eq. intros i.
    rewrite list_lookup_fmap.
    destruct (decide (i < Z.to_nat num_envs)%nat) as [Hi|Hi].
    + destruct (Hat i Hi) as (y & Hy & Hrow). unfold action_row in Hrow.
      rewrite Hd in Hrow. unfold load in Hrow. cbn in Hrow.
      rewrite Hy, lookup_take_lt by exact Hi.
      destruct (values action !! i); [|discriminate].
      injection Hrow as <-. reflexivity.
    + rewrite (lookup_ge_None_2 rows) by lia.
      rewrite (lookup_ge_None_2 (take _ _)); [reflexivity|].
      rewrite length_take. lia.
  - intros Hd.
    destruct (Hat 0%nat ltac:(unfold num_envs; lia)) as (y0 & _ & Hrow0).
    unfold action_row, load in Hrow0. rewrite Hd in Hrow0.
    destruct (shape space !! 0%nat) as [n|] eqn:Hn; [|discriminate].
    exists n. split; [reflexivity|].
    assert (forall i, (i < Z.to_nat num_envs)%nat ->
              rows !! i =
                Some (take (Z.to_nat n) (drop (i * Z.to_nat n) (values action)))
              /\ length (take (Z.to_nat n)
                           (drop (i * Z.to_nat n) (values action)))
                 = Z.to_nat n) as Hrows.
    { intros i Hi. destruct (Hat i Hi) as (y & Hy & Hrow).
      unfold action_row, load in Hrow. rewrite Hd, Hn in Hrow.
      cbn [mbind option_bind] in Hrow.
      destruct (INT_MAX <? n); [discriminate|].
      destruct (mapM_slice _ _ _ _ Hrow) as [-> Hl].
      split; assumption. }
    split.
    + apply Forall_lookup. intros i r Hr.
      assert (i < Z.to_nat num_envs)%nat as Hi
        by (rewrite <- Hlen; apply lookup_lt_is_Some; eauto).
      destruct (Hrows i Hi) as [Hri Hl]. rewrite Hri in Hr.
      injection Hr as <-. exact Hl.
    + rewrite flatten_rows.
      rewrite (concat_slices (values action) (Z.to_nat n)
                 (Z.to_nat num_envs) 0 rows Hlen).
      * reflexivity.
      * intros i Hi. exact (proj1 (Hrows i Hi)).
Qed.

Lemma convert_actions_rows_witness :
  let space := mkActionSpace "Box" [2] in
  let action :=
    mkTensor [8; 2] (LongData [1; 2; 3; 4; 5; 6; 7; 8; 9; 10; 11; 12; 13;
                               14; 15; 16]) in
  exists rows,
    convert_actions space action = Some rows /\
    length rows = Z.to_nat num_envs /\
    (String.eqb (type space) "Discrete" = true ->
     rows = (fun a => [a]) <$> take (Z.to_nat num_envs) (values action)) /\
    (String.eqb (type space) "Discrete" = false ->
     exists n,
       shape space !! 0%nat = Some n /\
       Forall (fun r => length r = Z.to_nat n) rows /\
       flatten_vector (Vectors (Scalars <$> rows)) =
         take (Z.to_nat num_envs * Z.to_nat n) (values action)).
Proof.
  intros space action. eexists. split; [vm_compute; reflexivity|].
  apply (convert_actions_rows space action).
  vm_compute. reflexivity.
Defined.

End LoopExtras.

Module BookkeepingFacts.

Import GymClient GymClientLoop ClientFacts LoopFacts.

Section Bookkeeping.

Context `{Collaborators}.

Lemma one_minus_done (d : bool) :
  fsub one (of_Z (Z.b2z d)) = if d then zero else one.
Proof. destruct d; reflexivity. Qed.

(** The mask that a step hands to [insert]: [1 - done]. *)
Lemma mask_tensor_inv (dones_vec : list (list bool)) (mask : Tensor) :
  mask_tensor dones_vec = Some mask ->
  sizes mask = [num_envs; 1] /\
  forall i, (i < Z.to_nat num_envs)%nat ->
    exists d : bool,
      done_at dones_vec i = Some d /\
      values mask !! i = Some (if d then zero else one).
Proof.
  unfold mask_tensor. intros Hm. bind_inv Hm. injection Hm as <-.
  split; [reflexivity|]. intros i Hi.
  destruct (mapM_seq_inv _ _ _ _ E) as [_ Hat].
  destruct (Hat i Hi) as (y & Hy & Hrow).
  unfold dones_row in Hrow. cbn [Nat.add] in Hrow.
  destruct (done_at dones_vec i) as [d|]; [|discriminate].
  injection Hrow as <-. exists d. split; [reflexivity|].
  cbn [values elements]. rewrite list_lookup_fmap, Hy.
  cbn [fmap option_fmap option_map].
  rewrite one_minus_done. reflexivity.
Qed.

(** The running totals after the tracking loop. *)
Lemma for_each_track_running (real_rewards : list float)
    (dones_vec : list (list bool)) (n : nat) :
  forall (first : nat) (c c' : Client),
    for_each (track_env real_rewards dones_vec) first n c = Some c' ->
    forall i : nat,
      if decide (first <= i < first + n)%nat
      then exists r running (d : bool),
             real_rewards !! i = Some r /\
             running_rewards c !! i = Some running /\
             done_at dones_vec i = Some d /\
             running_rewards c' !! i =
               Some (if d then zero else fadd running r)
      else running_rewards c' !! i = running_rewards c !! i.
Proof.
  induction n as [|n IH]; intros first c c' Hloop i.
  - injection Hloop as <-. destruct (decide _); [lia | reflexivity].
  - cbn [for_each] in Hloop. bind_inv Hloop.
    destruct (track_env_inv _ _ _ _ _ E)
      as (r & running & d0 & Hr & Hrun & Hd & _ & _ & _ & Hcase).
    assert (running_rewards c0 =
              <[first := if d0 then zero else fadd running r]>
                (running_rewards c)) as Hc0.
    { destruct d0.
      - destruct Hcase as (_ & _ & _ & _ & -> & _). reflexivity.
      - destruct Hcase as (_ & -> & _). reflexivity. }
    specialize (IH _ _ _ Hloop i).
    destruct (decide (i = first)) as [-> | Hne].
    + destruct (decide (S first <= first < S first + n)%nat); [lia|].
      destruct (decide (first <= first < first + S n)%nat); [|lia].
      exists r, running, d0. repeat split; try assumption.
      rewrite IH, Hc0. apply list_lookup_insert_eq.
      apply lookup_lt_is_Some. eauto.
    + assert (running_rewards c0 !! i = running_rewards c !! i) as Hsame
        by (rewrite Hc0; apply list_lookup_insert_ne; congruence).
      destruct (decide (S first <= i < S first + n)%nat),
        (decide (first <= i < first + S n)%nat); try lia.
      * destruct IH as (r' & running' & d' & Hr' & Hrun' & Hd' & Hres).
        exists r', running', d'. rewrite <- Hsame. repeat split; assumption.
      * congruence.
Qed.

(** The episode count grows by the number of done flags that are set. *)
Lemma for_each_track_count (real_rewards : list float)
    (dones_vec : list (list bool)) (n : nat) :
  forall (first : nat) (c c' : Client),
    for_each (track_env real_rewards dones_vec) first n c = Some c' ->
    episode_count c' =
      episode_count c +
      Z.of_nat (length (filter (fun i => done_at dones_vec i = Some true)
                          (seq first n))).
Proof.
  induction n as [|n IH]; intros first c c' Hloop.
  - injection Hloop as <-. cbn. lia.
  - cbn [for_each] in Hloop. bind_inv Hloop.
    destruct (track_env_inv _ _ _ _ _ E)
      as (r & running & d0 & _ & _ & Hd & _ & _ & _ & Hcase).
    rewrite (IH _ _ _ Hloop). cbn [seq]. rewrite filter_cons.
    destruct d0.
    + destruct Hcase as (_ & _ & _ & _ & _ & _ & ->).
      destruct (decide (done_at dones_vec first = Some true)); [|congruence].
      cbn [length]. lia.
    + destruct Hcase as (_ & _ & _ & ->).
      destruct (decide (done_at dones_vec first = Some true)); [congruence|].
      lia.
Qed.

Lemma window_slot (n : nat) :
  Z.to_nat (int_rem (Z.of_nat n) reward_average_window_size)
  = (n mod Z.to_nat reward_average_window_size)%nat.
Proof.
  unfold int_rem, reward_average_window_size.
  rewrite Z.rem_mod_nonneg by lia.
  change 10 with (Z.of_nat 10). rewrite <- Nat2Z.inj_mod, Nat2Z.id.
  reflexivity.
Qed.

Lemma distinct_slots (k n : nat) :
  (k < n)%nat -> (n < k + Z.to_nat reward_average_window_size)%nat ->
  (k mod Z.to_nat reward_average_window_size)%nat
  <> (n mod Z.to_nat reward_average_window_size)%nat.
Proof.
  change (Z.to_nat reward_average_window_size) with 10%nat.
  intros Hk Hn Heq.
  pose proof (Nat.div_mod_eq k 10) as Hdk.
  pose proof (Nat.div_mod_eq n 10) as Hdn.
  rewrite Heq in Hdk. lia.
Qed.

(** One iteration of the tracking loop keeps the window in step with the
    log of finished episodes. *)
Lemma track_env_window (real_rewards : list float)
    (dones_vec : list (list bool)) (c c' : Client) (i : nat)
    (totals : list float) :
  window_holds totals c ->
  track_env real_rewards dones_vec c i = Some c' ->
  window_holds
    (totals ++ option_list (finished_total real_rewards dones_vec c i)) c'.
Proof.
  intros (Hcount & Hlen & Hlast & Hzero) Ht.
  destruct (track_env_inv _ _ _ _ _ Ht)
    as (r & running & d0 & Hr & Hrun & Hd & _ & _ & _ & Hcase).
  unfold finished_total. rewrite Hd. destruct d0.
  - rewrite Hr, Hrun. cbn [mbind option_bind].
    change (option_list (Some (fadd running r))) with [fadd running r].
    destruct Hcase as (_ & Hslot & _ & Hh & _ & _ & Hc).
    cbv zeta in Hslot, Hh. rewrite Hcount, window_slot in Hslot, Hh.
    set (W := Z.to_nat reward_average_window_size) in *.
    assert (0 < W)%nat as HW by (unfold W, reward_average_window_size; lia).
    unfold window_holds. rewrite length_app. cbn [length].
    fold W. rewrite Hh, length_insert.
    split; [lia|]. split; [exact Hlen|]. split.
    + intros k Hk Hwin.
      destruct (decide (k = length totals)) as [-> | Hne].
      * rewrite list_lookup_insert_eq by exact Hslot.
        rewrite lookup_app_r by lia. rewrite Nat.sub_diag. reflexivity.
      * rewrite list_lookup_insert_ne
          by (apply not_eq_sym, distinct_slots; fold W; lia).
        rewrite lookup_app_l by lia. apply Hlast; lia.
    + intros j Hj HjW.
      rewrite list_lookup_insert_ne.
      * apply Hzero; lia.
      * rewrite Nat.mod_small by lia. lia.
  - destruct Hcase as (Hh & _ & _ & Hc).
    change (option_list None) with (@nil float).
    rewrite app_nil_r. unfold window_holds. rewrite Hh, Hc.
    repeat split; assumption.
Qed.

Lemma omap_cons_list {A B} (f : A -> option B) (x : A) (l : list A) :
  omap f (x :: l) = option_list (f x) ++ omap f l.
Proof. cbn. destruct (f x); reflexivity. Qed.

Lemma omap_agree {A B} (f g : A -> option B) (l : list A) :
  (forall x, x ∈ l -> f x = g x) -> omap f l = omap g l.
Proof.
  induction l as [|x l IH]; intros Hfg; [reflexivity|].
  rewrite !omap_cons_list, (Hfg x) by (apply list_elem_of_here).
  f_equal. apply IH. intros y Hy. apply Hfg. apply list_elem_of_further, Hy.
Qed.

(** The tracking loop keeps the window in step with the log. *)
Lemma for_each_track_window (real_rewards : list float)
    (dones_vec : list (list bool)) (n : nat) :
  forall (first : nat) (c c' : Client) (totals : list float),
    window_holds totals c ->
    for_each (track_env real_rewards dones_vec) first n c = Some c' ->
    window_holds
      (totals ++ finished_totals real_rewards dones_vec c first n) c'.
Proof.
  induction n as [|n IH]; intros first c c' totals Hw Hloop.
  - injection Hloop as <-. unfold finished_totals. cbn.
    rewrite app_nil_r. exact Hw.
  - cbn [for_each] in Hloop. bind_inv Hloop.
    pose proof (track_env_window _ _ _ _ _ _ Hw E) as Hw0.
    specialize (IH _ _ _ _ Hw0 Hloop).
    unfold finished_totals in *. cbn [seq].
    rewrite omap_cons_list, app_assoc.
    rewrite (omap_agree (finished_total real_rewards dones_vec c)
               (finished_total real_rewards dones_vec c0)); [exact IH|].
    intros j Hj. apply list_elem_of_In, in_seq in Hj.
    destruct (track_env_inv _ _ _ _ _ E)
      as (r & running & d0 & _ & _ & _ & _ & _ & _ & Hcase).
    assert (running_rewards c0 !! j = running_rewards c !! j) as Hsame.
    { destruct d0.
      - destruct Hcase as (_ & _ & _ & _ & -> & _).
        apply list_lookup_insert_ne. lia.
      - destruct Hcase as (_ & -> & _).
        apply list_lookup_insert_ne. lia. }
    unfold finished_total. rewrite Hsame. reflexivity.
Qed.

(** A collection step and the window. *)
Lemma collect_window (observation_space_shape : list Z)
    (act_result : list Tensor) (step_result : StepResponse) (c c' : Client)
    (totals : list float) :
  window_holds totals c ->
  collect observation_space_shape act_result step_result c = Some c' ->
  window_holds
    (totals ++
     finished_totals (flatten_vector (real_reward step_result))
       (done step_result) c 0 (Z.to_nat num_envs)) c'.
Proof.
  intros Hw Hc.
  destruct (collect_inv _ _ _ _ _ Hc)
    as (? & ? & R & c1 & ? & ? & ? & ? & ? & ? & _ & _ & _ & Ht & _ & _ & _ &
        _ & _ & _ & ->).
  exact (for_each_track_window _ _ _ 0%nat
           (mkClient (running_rewards c) (episode_count c) (render c)
              (reward_history c) (rms_update (returns_rms c) R) R
              (storage c)) c1 totals Hw Ht).
Qed.

Lemma rollout_window (observation_space_shape : list Z)
    (steps : list (list Tensor * StepResponse)) :
  forall (c c' : Client) (totals : list float),
    window_holds totals c ->
    rollout observation_space_shape steps c = Some c' ->
    window_holds
      (totals ++ rollout_totals observation_space_shape steps c) c'.
Proof.
  induction steps as [|[act_result step_result] steps IH];
    intros c c' totals Hw Hroll.
  - injection Hroll as <-. cbn. rewrite app_nil_r. exact Hw.
  - cbn [rollout rollout_totals] in *. bind_inv Hroll.
    rewrite app_assoc. apply IH; [|exact Hroll].
    exact (collect_window _ _ _ _ _ _ Hw E).
Qed.

Lemma start_window (rms : RunningMeanStd) (st : RolloutStorage) :
  window_holds [] (start rms st).
Proof.
  unfold window_holds, start. cbn [episode_count reward_history length].
  split; [reflexivity|]. split; [apply length_replicate|]. split.
  - intros k Hk. lia.
  - intros j _ Hj. apply lookup_replicate_2, Hj.
Qed.

Lemma start_consistent (rms : RunningMeanStd) (st : RolloutStorage) :
  consistent (start rms st).
Proof.
  unfold consistent, start. cbn. rewrite !length_replicate.
  repeat split; lia.
Qed.

Lemma rollout_succeeds (observation_space_shape : list Z)
    (steps : list (list Tensor * StepResponse)) :
  Forall (fun p => fits observation_space_shape p.1 p.2) steps ->
  forall c : Client,
    consistent c ->
    exists c',
      rollout observation_space_shape steps c = Some c' /\ consistent c'.
Proof.
  induction 1 as [|[act_result step_result] steps Hfit _ IH]; intros c Hc.
  - exists c. split; [reflexivity | exact Hc].
  - cbn [fst snd] in Hfit.
    destruct (collect_succeeds _ _ _ _ Hc Hfit) as (c1 & Hstep & Hc1).
    destruct (IH c1 Hc1) as (c' & Hroll & Hc').
    exists c'. split; [|exact Hc'].
    cbn [rollout]. rewrite Hstep. exact Hroll.
Qed.

End Bookkeeping.

End BookkeepingFacts.

Module AverageFacts.

Import GymClient GymClientLoop ClientInputs Contents.

(** Adding an integer to the [int] accumulator, within the range in which
    the [float] addition is exact. *)
Lemma to_int_add_integer (init z : Z) :
  Z.abs init <= FLOAT_EXACT -> Z.abs z <= FLOAT_EXACT ->
  Z.abs (init + z) <= FLOAT_EXACT ->
  to_int (fadd (of_Z init) (of_Z z)) = Some (init + z).
Proof.
  unfold FLOAT_EXACT. intros _ _ Hrange.
  unfold to_int, to_integer, fadd, of_Z, inject_Z, Qplus.
  cbn [Qnum Qden]. change (Z.pos (1 * 1)) with 1.
  rewrite Z.quot_1_r, !Z.mul_1_r.
  assert ((INT_MIN <=? init + z) && (init + z <=? INT_MAX) = true) as ->;
    [|reflexivity].
  unfold INT_MIN, INT_MAX.
  apply andb_true_intro. split; apply Z.leb_le; lia.
Qed.

(** Adding a value of [[0, 1)] to an [int] accumulator that is not negative
    leaves it as it is. *)
Lemma to_int_add_fraction (init : Z) (q : Q) :
  0 <= init <= INT_MAX -> (0 <= q)%Q -> (q < 1)%Q ->
  to_int (fadd (of_Z init) (Fin q)) = Some init.
Proof.
  intros Hinit Hlo Hhi. destruct q as [n d].
  unfold Qle in Hlo. unfold Qlt in Hhi. cbn [Qnum Qden] in Hlo, Hhi.
  unfold to_int, to_integer, fadd, of_Z, inject_Z, Qplus.
  cbn [Qnum Qden]. change (Z.pos (1 * d)) with (Z.pos d).
  rewrite Z.mul_1_r.
  assert (Z.quot (init * Z.pos d + n) (Z.pos d) = init) as ->.
  { rewrite Z.quot_div_nonneg by lia.
    symmetry. apply (Z.div_unique _ _ init n); lia. }
  assert ((INT_MIN <=? init) && (init <=? INT_MAX) = true) as ->;
    [|reflexivity].
  apply andb_true_intro. unfold INT_MIN.
  split; apply Z.leb_le; lia.
Qed.

Lemma accumulate_int_integers (zs : list Z) :
  forall init : Z,
    Z.abs init + foldr (fun z acc => Z.abs z + acc) 0 zs <= FLOAT_EXACT ->
    accumulate_int (of_Z <$> zs) init = Some (init + foldr Z.add 0 zs).
Proof.
  induction zs as [|z zs IH]; intros init Hb.
  - cbn. f_equal. lia.
  - cbn [fmap list_fmap accumulate_int foldr] in *.
    assert (0 <= foldr (fun z acc => Z.abs z + acc) 0 zs) as Hpos.
    { clear. induction zs as [|z zs IH]; cbn; lia. }
    rewrite to_int_add_integer by lia.
    cbn [mbind option_bind]. rewrite IH by lia. f_equal. lia.
Qed.

Lemma accumulate_int_fractions (v : list float) :
  Forall (fun x => exists q, x = Fin q /\ (0 <= q)%Q /\ (q < 1)%Q) v ->
  forall init : Z,
    0 <= init <= INT_MAX -> accumulate_int v init = Some init.
Proof.
  induction 1 as [|x v (q & -> & Hlo & Hhi) _ IH]; intros init Hinit.
  - reflexivity.
  - cbn [accumulate_int]. rewrite to_int_add_fraction by assumption.
    cbn [mbind option_bind]. apply IH, Hinit.
Qed.

Lemma inject_Z_nonzero (m : Z) : m <> 0 -> Qeq_bool (inject_Z m) 0 = false.
Proof.
  intros Hm. unfold Qeq_bool, inject_Z. cbn [Qnum Qden].
  apply Z.eqb_neq. lia.
Qed.

(** The clamp keeps a value between its bounds, a NaN apart. *)
Lemma clamp_bounds (x : float) (lo hi : Q) :
  (lo <= hi)%Q ->
  clamp x lo hi = NaN \/
  exists q, clamp x lo hi = Fin q /\ (lo <= q)%Q /\ (q <= hi)%Q.
Proof.
  intros Hlh. destruct x as [q| | |]; cbn [clamp].
  - right. eexists. split; [reflexivity|]. split.
    + apply Q.min_glb; [apply Q.le_max_r | exact Hlh].
    + apply Q.le_min_r.
  - right. eexists. split; [reflexivity|]. split; [exact Hlh | apply Qle_refl].
  - right. eexists. split; [reflexivity|]. split.
    + apply Q.min_glb; [apply Qle_refl | exact Hlh].
    + apply Q.le_min_r.
  - left. reflexivity.
Qed.

(** The examples' responses have the sizes that the loop reads. *)
Lemma response_fits (r : float) (d : bool) :
  fits [2] act_result (response r d).
Proof.
  repeat split.
  - repeat constructor; lia.
  - vm_compute. lia.
  - vm_compute. lia.
  - intros i Hi.
    do 8 (destruct i as [|i]; [destruct d; vm_compute; eauto|]).
    vm_compute in Hi. lia.
  - vm_compute. lia.
Qed.

End AverageFacts.

(** ** Runs of the loop on the example responses *)

Module ClientRuns.

Import GymClient ClientInputs ClientFacts BookkeepingFacts AverageFacts.

Lemma average_before_first_episode_witness :
  exists c,
    rollout [2] quiet_steps started = Some c /\
    episode_count c = 0 /\
    average_reward c = Some NaN /\
    exists c', report 10 c = Some (c', Some NaN) /\ render c' = false.
Proof.
  assert (Forall (fun p => fits [2] p.1 p.2) quiet_steps) as Hfit
    by (apply Forall_replicate, response_fits).
  destruct (rollout_succeeds [2] quiet_steps Hfit started
              (start_consistent _ _)) as (c & Hc & _).
  exists c. split; [exact Hc|].
  apply (@ClientClaims.average_before_first_episode LastSeen [2] quiet_steps
           no_batches no_rewards c 10).
  - exact Hc.
  - vm_compute. reflexivity.
  - reflexivity.
  - reflexivity.
Defined.

End ClientRuns.

Module ClientOnStorageClaims.

Import GymClient ClientInputs ClientOnStorage StorageFacts.


End ClientOnStorageClaims.

Module BookkeepingExtras.

Import GymClient GymClientLoop ClientInputs Contents ClientFacts LoopFacts
  BookkeepingFacts AverageFacts.

Section Orchestrator.

Context `{Collaborators}.

(** X7.  A collection step calls the storage's [insert] once, on the
    storage as it was, with: the flattened observation of the response as a
    tensor of shape [num_envs :: observation_space_shape]; elements 3, 1, 2
    and 0 of the policy's output as hidden state, action, action
    log-probability and value prediction; and a mask of shape
    [[num_envs, 1]] that is 0 for an environment whose done flag is set and
    1 for the others. *)
Theorem insert_arguments (observation_space_shape : list Z)
    (act_result : list Tensor) (step_result : StepResponse) (c c' : Client) :
  collect observation_space_shape act_result step_result c = Some c' ->
  exists obs hidden_state action action_log_prob value reward mask,
    storage c' =
      storage_insert (storage c) obs hidden_state action action_log_prob
        value reward mask /\
    act_result !! 3%nat = Some hidden_state /\
    act_result !! 1%nat = Some action /\
    act_result !! 2%nat = Some action_log_prob /\
    act_result !! 0%nat = Some value /\
    sizes obs = num_envs :: observation_space_shape /\
    values obs =
      take (Z.to_nat (numel_of (num_envs :: observation_space_shape)))
        (flatten_vector (observation step_result)) /\
    sizes mask = [num_envs; 1] /\
    forall i, (i < Z.to_nat num_envs)%nat ->
      exists d : bool,
        done_at (done step_result) i = Some d /\
        values mask !! i = Some (if d then zero else one).
Proof.
  intros Hc.
  destruct (collect_inv _ _ _ _ _ Hc)
    as (obs & raw & R & c1 & mask & hidden_state & action & action_log_prob &
        value & reward & Hobs & _ & _ & Ht & Hmask & H3 & H1 & H2 & H0 & _ &
        ->).
  destruct (for_each_track_returns _ _ _ _ _ _ Ht) as (_ & Hst & _).
  destruct (from_blob_inv _ _ _ Hobs) as (Hsizes & Hvals & _).
  destruct (mask_tensor_inv _ _ Hmask) as [Hms Hmv].
  cbn [storage] in *.
  exists obs, hidden_state, action, action_log_prob, value, reward, mask.
  rewrite Hst. repeat split; assumption.
Qed.

(** X8.  From the start of the training loop, every sequence of collection
    steps whose policy outputs and responses have the sizes that the loop
    reads runs to its end, and leaves one running total and one discounted
    return per environment, a window of [reward_average_window_size] totals
    and an episode count that is not negative. *)
Theorem rollout_completes (observation_space_shape : list Z)
    (steps : list (list Tensor * StepResponse)) (rms : RunningMeanStd)
    (st : RolloutStorage) :
  Forall (fun p => fits observation_space_shape p.1 p.2) steps ->
  exists c,
    rollout observation_space_shape steps (start rms st) = Some c /\
    consistent c.
Proof.
  intros Hfits.
  exact (rollout_succeeds _ _ Hfits _ (start_consistent rms st)).
Qed.

(** X9.  A collection step adds to the episode count the number of
    environments whose done flag is set in the response; the count never
    goes down. *)
Theorem episode_count_step (observation_space_shape : list Z)
    (act_result : list Tensor) (step_result : StepResponse) (c c' : Client) :
  collect observation_space_shape act_result step_result c = Some c' ->
  episode_count c' =
    episode_count c +
    Z.of_nat (length (filter
                        (fun i => done_at (done step_result) i = Some true)
                        (seq 0 (Z.to_nat num_envs)))) /\
  episode_count c <= episode_count c'.
Proof.
  intros Hc.
  destruct (collect_inv _ _ _ _ _ Hc)
    as (? & ? & R & c1 & ? & ? & ? & ? & ? & ? & _ & _ & _ & Ht & _ & _ & _ &
        _ & _ & _ & ->).
  pose proof (for_each_track_count _ _ _ _ _ _ Ht) as Hcount.
  cbn [episode_count] in *. split; [exact Hcount | lia].
Qed.

(** X10.  After a collection step the running total of an environment is
    its total before the step plus the real reward of the step, or 0 when
    its done flag is set. *)
Theorem running_totals_step (observation_space_shape : list Z)
    (act_result : list Tensor) (step_result : StepResponse) (c c' : Client) :
  collect observation_space_shape act_result step_result c = Some c' ->
  forall i, (i < Z.to_nat num_envs)%nat ->
    exists r running (d : bool),
      flatten_vector (real_reward step_result) !! i = Some r /\
      running_rewards c !! i = Some running /\
      done_at (done step_result) i = Some d /\
      running_rewards c' !! i = Some (if d then zero else fadd running r).
Proof.
  intros Hc i Hi.
  destruct (collect_inv _ _ _ _ _ Hc)
    as (? & ? & R & c1 & ? & ? & ? & ? & ? & ? & _ & _ & _ & Ht & _ & _ & _ &
        _ & _ & _ & ->).
  pose proof (for_each_track_running _ _ _ _ _ _ Ht i) as Hrun.
  destruct (decide (0 <= i < 0 + Z.to_nat num_envs)%nat); [|lia].
  exact Hrun.
Qed.

(** X11.  Through any sequence of collection steps from the start of the
    loop, the window is a ring over the log of finished episodes (an
    episode's total being its running total plus the last real reward, in
    the order in which the loop meets the done flags): the count is the
    length of the log, total number [k] of the last
    [reward_average_window_size] ones sits at slot
    [k mod reward_average_window_size], older ones are overwritten, and
    slots never written hold 0. *)
Theorem window_is_a_ring (observation_space_shape : list Z)
    (steps : list (list Tensor * StepResponse)) (rms : RunningMeanStd)
    (st : RolloutStorage) (c : Client) :
  rollout observation_space_shape steps (start rms st) = Some c ->
  window_holds
    (rollout_totals observation_space_shape steps (start rms st)) c.
Proof.
  intros Hroll.
  exact (rollout_window _ _ _ _ [] (start_window rms st) Hroll).
Qed.

(** X12.  When the window holds integers whose absolute values sum to at
    most [2^24], so that the accumulator and every partial sum are exact as
    [float] values, [std::accumulate] returns their exact sum, and the
    average is that sum divided by the smaller of the episode count and the
    window size. *)
Theorem average_of_integral_totals (c : Client) (zs : list Z) :
  reward_history c = of_Z <$> zs ->
  foldr (fun z acc => Z.abs z + acc) 0 zs <= FLOAT_EXACT ->
  accumulate_int (reward_history c) 0 = Some (foldr Z.add 0 zs) /\
  average_reward c =
    Some (fdiv (of_Z (foldr Z.add 0 zs))
            (of_Z (Z.min (episode_count c) reward_average_window_size))).
Proof.
  intros Hh Hb.
  assert (accumulate_int (reward_history c) 0 = Some (foldr Z.add 0 zs))
    as Hacc.
  { rewrite Hh, accumulate_int_integers by (cbn; lia).
    rewrite Z.add_0_l. reflexivity. }
  split; [exact Hacc|].
  unfold average_reward. rewrite Hacc.
  cbn [mbind option_bind]. do 3 f_equal.
  destruct (episode_count c <? reward_average_window_size) eqn:Hlt.
  - apply Z.ltb_lt in Hlt. lia.
  - apply Z.ltb_ge in Hlt. lia.
Qed.

(** X13.  When every total in the window is in [[0, 1)], the sum that the
    average is computed from is 0, whatever the totals: with at least one
    finished episode the average is 0. *)
Theorem fractions_are_dropped (c : Client) :
  Forall (fun x => exists q, x = Fin q /\ (0 <= q)%Q /\ (q < 1)%Q)
    (reward_history c) ->
  accumulate_int (reward_history c) 0 = Some 0 /\
  exists avg,
    average_reward c = Some avg /\
    (0 < episode_count c -> same avg zero = true).
Proof.
  intros Hfrac.
  assert (accumulate_int (reward_history c) 0 = Some 0) as Hacc
    by (apply accumulate_int_fractions;
        [exact Hfrac | unfold INT_MAX; lia]).
  split; [exact Hacc|].
  unfold average_reward. rewrite Hacc. cbn [mbind option_bind].
  eexists. split; [reflexivity|]. intros Hpos.
  set (m := if episode_count c <? reward_average_window_size
            then episode_count c else reward_average_window_size).
  assert (0 < m) as Hm.
  { unfold m. destruct (_ <? _); [exact Hpos|].
    unfold reward_average_window_size. lia. }
  unfold fdiv, of_Z.
  rewrite inject_Z_nonzero by lia.
  unfold same, zero. apply Qeq_bool_iff.
  unfold Qdiv. apply Qmult_0_l.
Qed.

(** X14.  Every reward that a collection step hands to the storage's
    [insert] is between [-reward_clip_value] and [reward_clip_value], or a
    NaN. *)
Theorem rewards_are_clipped (observation_space_shape : list Z)
    (act_result : list Tensor) (step_result : StepResponse) (c c' : Client) :
  collect observation_space_shape act_result step_result c = Some c' ->
  exists obs hidden_state action action_log_prob value reward mask,
    storage c' =
      storage_insert (storage c) obs hidden_state action action_log_prob
        value reward mask /\
    Forall (fun x =>
              x = NaN \/
              exists q, x = Fin q /\ (- reward_clip_value <= q)%Q /\
                        (q <= reward_clip_value)%Q)
      (values reward).
Proof.
  intros Hc.
  destruct (collect_inv _ _ _ _ _ Hc)
    as (obs & raw & R & c1 & mask & hidden_state & action & action_log_prob &
        value & reward & _ & _ & _ & Ht & _ & _ & _ & _ & _ & Hrew & ->).
  destruct (for_each_track_returns _ _ _ _ _ _ Ht) as (_ & Hst & _).
  destruct (from_blob_inv _ _ _ Hrew) as (_ & Hvals & _).
  cbn [storage] in *.
  exists obs, hidden_state, action, action_log_prob, value, reward, mask.
  split; [rewrite Hst; reflexivity|].
  rewrite Hvals. apply Forall_take. unfold normalize.
  apply Forall_fmap, Forall_forall. intros x _. cbn.
  apply clamp_bounds. unfold reward_clip_value. discriminate.
Qed.

(** X15.  The reporting block logs an average exactly at the updates that
    are positive multiples of [log_interval] (never at update 0); it leaves
    the running totals, the episode count, the window, the discounted
    returns, the running moments and the storage as they are, and [render]
    too when it logs nothing. *)
Theorem report_cadence (update : Z) (c c' : Client)
    (logged : option float) :
  report update c = Some (c', logged) ->
  (is_Some logged <-> exists k, 0 < k /\ update = log_interval * k) /\
  running_rewards c' = running_rewards c /\
  episode_count c' = episode_count c /\
  reward_history c' = reward_history c /\
  returns c' = returns c /\
  returns_rms c' = returns_rms c /\
  storage c' = storage c /\
  (logged = None -> render c' = render c).
Proof.
  unfold report, int_rem, log_interval. intros Hrep.
  destruct ((Z.rem update 10 =? 0) && (0 <? update)) eqn:Hcond.
  - apply andb_prop in Hcond as [Hrem Hpos].
    apply Z.eqb_eq in Hrem. apply Z.ltb_lt in Hpos.
    bind_inv Hrep. injection Hrep as <- <-. cbn.
    repeat split; try discriminate; eauto.
    intros _. exists (Z.quot update 10).
    pose proof (Z.quot_rem' update 10) as Hqr. lia.
  - injection Hrep as <- <-. repeat split.
    + intros [x Hx]. discriminate.
    + intros (k & Hk & ->). exfalso.
      apply andb_false_iff in Hcond as [Hrem | Hpos].
      * apply Z.eqb_neq in Hrem. apply Hrem.
        rewrite Z.mul_comm. apply Z.rem_mul. lia.
      * apply Z.ltb_ge in Hpos. lia.
Qed.

End Orchestrator.

Lemma insert_arguments_witness :
  exists c',
    collect [2] act_result (response one true) started = Some c' /\
    exists obs hidden_state action action_log_prob value reward mask,
      storage c' =
        storage_insert (storage started) obs hidden_state action
          action_log_prob value reward mask /\
      act_result !! 3%nat = Some hidden_state /\
      act_result !! 1%nat = Some action /\
      act_result !! 2%nat = Some action_log_prob /\
      act_result !! 0%nat = Some value /\
      sizes obs = num_envs :: [2] /\
      values obs =
        take (Z.to_nat (numel_of (num_envs :: [2])))
          (flatten_vector (observation (response one true))) /\
      sizes mask = [num_envs; 1] /\
      forall i, (i < Z.to_nat num_envs)%nat ->
        exists d : bool,
          done_at (done (response one true)) i = Some d /\
          values mask !! i = Some (if d then zero else one).
Proof.
  eexists. split; [vm_compute; reflexivity|].
  apply (insert_arguments [2] act_result (response one true) started).
  vm_compute. reflexivity.
Defined.

Lemma rollout_completes_witness :
  exists c,
    rollout [2]
      [(act_result, response one true); (act_result, response one false)]
      (start no_batches no_rewards) = Some c /\
    consistent c.
Proof.
  apply (rollout_completes [2]
           [(act_result, response one true);
            (act_result, response one false)] no_batches no_rewards).
  constructor; [apply response_fits|].
  constructor; [apply response_fits|].
  constructor.
Defined.

Lemma episode_count_step_witness :
  exists c',
    collect [2] act_result (response one true) started = Some c' /\
    episode_count c' =
      episode_count started +
      Z.of_nat (length (filter
                          (fun i => done_at (done (response one true)) i
                                    = Some true)
                          (seq 0 (Z.to_nat num_envs)))) /\
    episode_count started <= episode_count c'.
Proof.
  eexists. split; [vm_compute; reflexivity|].
  apply (episode_count_step [2] act_result (response one true) started).
  vm_compute. reflexivity.
Defined.

Lemma running_totals_step_witness :
  exists c',
    collect [2] act_result (response one false) started = Some c' /\
    forall i, (i < Z.to_nat num_envs)%nat ->
      exists r running (d : bool),
        flatten_vector (real_reward (response one false)) !! i = Some r /\
        running_rewards started !! i = Some running /\
        done_at (done (response one false)) i = Some d /\
        running_rewards c' !! i = Some (if d then zero else fadd running r).
Proof.
  eexists. split; [vm_compute; reflexivity|].
  apply (running_totals_step [2] act_result (response one false) started).
  vm_compute. reflexivity.
Defined.

Lemma window_is_a_ring_witness :
  let steps := replicate 2 (act_result, response (Fin (1 # 2)) true) in
  exists c,
    rollout [2] steps (start no_batches no_rewards) = Some c /\
    window_holds (rollout_totals [2] steps (start no_batches no_rewards)) c.
Proof.
  intros steps. eexists. split; [vm_compute; reflexivity|].
  apply (window_is_a_ring [2] steps no_batches no_rewards).
  vm_compute. reflexivity.
Defined.

Lemma average_of_integral_totals_witness :
  let steps := replicate 2 (act_result, response (Fin 3) true) in
  let zs := replicate 10 3 in
  exists c,
    rollout [2] steps started = Some c /\
    accumulate_int (reward_history c) 0 = Some (foldr Z.add 0 zs) /\
    average_reward c =
      Some (fdiv (of_Z (foldr Z.add 0 zs))
              (of_Z (Z.min (episode_count c) reward_average_window_size))).
Proof.
  intros steps zs. eexists. split; [vm_compute; reflexivity|].
  apply (average_of_integral_totals _ zs).
  - vm_compute. reflexivity.
  - vm_compute. discriminate.
Defined.

Lemma fractions_are_dropped_witness :
  let steps := replicate 2 (act_result, response (Fin (1 # 2)) true) in
  exists c,
    rollout [2] steps started = Some c /\
    accumulate_int (reward_history c) 0 = Some 0 /\
    exists avg,
      average_reward c = Some avg /\
      (0 < episode_count c -> same avg zero = true).
Proof.
  intros steps. eexists. split; [vm_compute; reflexivity|].
  apply fractions_are_dropped. cbn [reward_history].
  repeat constructor;
    (eexists; split; [reflexivity|]; split;
     [vm_compute; discriminate | reflexivity]).
Defined.

Lemma rewards_are_clipped_witness :
  exists c',
    collect [2] act_result (response (Fin 1000) true) started = Some c' /\
    exists obs hidden_state action action_log_prob value reward mask,
      storage c' =
        storage_insert (storage started) obs hidden_state action
          action_log_prob value reward mask /\
      Forall (fun x =>
                x = NaN \/
                exists q, x = Fin q /\ (- reward_clip_value <= q)%Q /\
                          (q <= reward_clip_value)%Q)
        (values reward).
Proof.
  eexists. split; [vm_compute; reflexivity|].
  apply (rewards_are_clipped [2] act_result (response (Fin 1000) true)
           started).
  vm_compute. reflexivity.
Defined.

Lemma report_cadence_witness :
  exists c' logged,
    report 20 started = Some (c', logged) /\
    (is_Some logged <-> exists k, 0 < k /\ 20 = log_interval * k) /\
    running_rewards c' = running_rewards started /\
    episode_count c' = episode_count started /\
    reward_history c' = reward_history started /\
    returns c' = returns started /\
    returns_rms c' = returns_rms started /\
    storage c' = storage started /\
    (logged = None -> render c' = render started).
Proof.
  eexists. eexists. split; [vm_compute; reflexivity|].
  apply (report_cadence 20 started).
  vm_compute. reflexivity.
Defined.

End BookkeepingExtras.

Module ScheduleExtras.

Import GymClient GymClientLoop AverageFacts.

(** X16.  With the decay enabled, the learning-rate factor of update
    [update] out of [num_updates] is [1 - update / num_updates]: it starts
    at 1 and stays in [(0, 1]] until the last update.  With the flag as the
    client sets it, the factor is always 1. *)
Theorem decay_level_range (update n : Z) :
  0 <= update < n ->
  (exists q,
     decay_level_of true update n = Fin q /\
     (q == 1 - inject_Z update / inject_Z n)%Q /\
     (0 < q)%Q /\ (q <= 1)%Q) /\
  (update = 0 -> same (decay_level_of true update n) one = true) /\
  decay_level update n = Fin 1.
Proof.
  intros [Hlo Hhi].
  assert (0 < inject_Z n)%Q as Hn
    by (change 0%Q with (inject_Z 0); rewrite <- Zlt_Qlt; lia).
  assert (0 <= inject_Z update / inject_Z n)%Q as Hq0.
  { apply Qle_shift_div_l; [exact Hn|]. rewrite Qmult_0_l.
    change 0%Q with (inject_Z 0). rewrite <- Zle_Qle. exact Hlo. }
  assert (inject_Z update / inject_Z n < 1)%Q as Hq1.
  { apply Qlt_shift_div_r; [exact Hn|]. rewrite Qmult_1_l.
    rewrite <- Zlt_Qlt. exact Hhi. }
  unfold decay_level, decay_level_of, use_lr_decay, fsub, fdiv, of_Z.
  rewrite inject_Z_nonzero by lia. cbn [fopp fadd].
  split; [|split; [|reflexivity]].
  - eexists. split; [reflexivity|]. split; [|split]; lra.
  - intros ->. unfold same, one. apply Qeq_bool_iff.
    unfold Qdiv. rewrite Qmult_0_l. reflexivity.
Qed.

Lemma decay_level_range_witness :
  (exists q,
     decay_level_of true 156250 num_updates = Fin q /\
     (q == 1 - inject_Z 156250 / inject_Z num_updates)%Q /\
     (0 < q)%Q /\ (q <= 1)%Q) /\
  (156250 = 0 ->
   same (decay_level_of true 156250 num_updates) one = true) /\
  decay_level 156250 num_updates = Fin 1.
Proof.
  apply (decay_level_range 156250 num_updates).
  vm_compute. split; [discriminate | reflexivity].
Defined.

(** X17.  For every update of the loop, the frame total
    [(update + 1) * batch_size * num_envs] is computed without [int]
    overflow and is at most [max_frames]; at the last update it is
    [max_frames]. *)
Theorem total_steps_within_budget (update : Z) :
  0 <= update < num_updates ->
  total_steps update = Some ((update + 1) * batch_size * num_envs) /\
  (update + 1) * batch_size * num_envs <= max_frames /\
  max_frames <= INT_MAX /\
  total_steps (num_updates - 1) = Some max_frames.
Proof.
  change num_updates with 312500. intros Hu.
  unfold total_steps, int_mul, batch_size, num_envs, max_frames, INT_MIN,
    INT_MAX.
  assert ((- 2 ^ 31 <=? (update + 1) * 40)
          && ((update + 1) * 40 <=? 2 ^ 31 - 1) = true) as ->
    by (apply andb_true_intro; split; apply Z.leb_le; lia).
  cbn [mbind option_bind].
  assert ((- 2 ^ 31 <=? (update + 1) * 40 * 8)
          && ((update + 1) * 40 * 8 <=? 2 ^ 31 - 1) = true) as ->
    by (apply andb_true_intro; split; apply Z.leb_le; lia).
  repeat split; try reflexivity; lia.
Qed.

Lemma total_steps_within_budget_witness :
  total_steps 10 = Some ((10 + 1) * batch_size * num_envs) /\
  (10 + 1) * batch_size * num_envs <= max_frames /\
  max_frames <= INT_MAX /\
  total_steps (num_updates - 1) = Some max_frames.
Proof.
  apply (total_steps_within_budget 10).
  vm_compute. split; [discriminate | reflexivity].
Defined.

(** X18.  The throughput [total_steps / (seconds + 1e-9)] is a finite
    value that is not negative for every frame total and every elapsed time
    that are not negative, zero seconds included. *)
Theorem fps_is_finite (frames seconds : Z) :
  0 <= frames -> 0 <= seconds ->
  exists q, fps frames seconds = Fin q /\ (0 <= q)%Q.
Proof.
  intros Hf Hs.
  assert (0 <= inject_Z frames)%Q as Hfq
    by (change 0%Q with (inject_Z 0); rewrite <- Zle_Qle; exact Hf).
  assert (0 <= inject_Z seconds)%Q as Hsq
    by (change 0%Q with (inject_Z 0); rewrite <- Zle_Qle; exact Hs).
  assert (0 < inject_Z seconds + (1 # 1000000000))%Q as Hpos.
  { assert (0 < 1 # 1000000000)%Q by reflexivity. lra. }
  unfold fps, fdiv, fadd, of_Z.
  destruct (Qeq_bool (inject_Z seconds + (1 # 1000000000)) 0) eqn:Hz.
  - apply Qeq_bool_eq in Hz. lra.
  - eexists. split; [reflexivity|].
    apply Qle_shift_div_l; [exact Hpos|]. lra.
Qed.

Lemma fps_is_finite_witness :
  exists q, fps 3520 0 = Fin q /\ (0 <= q)%Q.
Proof. apply (fps_is_finite 3520 0); lia. Defined.

End ScheduleExtras.
